(** * GoodsManagement: the goods catalog form and its placeholder forecasts

    A shallow embedding of the [GoodsManagement] React component
    (state hooks, [fetchExchangeRate], [handleInputChange], [handleSubmit])
    together with the JavaScript primitives it relies on: IEEE-754 binary64
    numbers, string truthiness and [parseFloat]. *)

From Stdlib Require Import ZArith Bool List String Ascii Lia.
From Stdlib Require Import SpecFloat.
From stdpp Require Import gmap strings.

Local Open Scope string_scope.
Local Open Scope list_scope.
Local Open Scope Z_scope.

(** ** JavaScript numbers *)

(** A JavaScript number is an IEEE-754 binary64 value.  The Standard
    Library's [spec_float] is used at precision 53 and maximal exponent
    1024; its single [S754_nan] stands for every NaN. *)
Module JS.

Definition prec : Z := 53.
Definition emax : Z := 1024.

Abbreviation number := spec_float (only parsing).

(** [x * y] *)
Definition mul (x y : number) : number := SFmul prec emax x y.

(** [x > y], [x < y], [x <= y]: false as soon as one side is NaN. *)
Definition gt (x y : number) : bool := SFltb y x.
Definition lt (x y : number) : bool := SFltb x y.
Definition le (x y : number) : bool := SFleb x y.

Definition is_nan (x : number) : bool :=
  match x with S754_nan => true | _ => false end.

(** A number the hardware can hold: finite values are in canonical form. *)
Definition well_formed (x : number) : bool := valid_binary prec emax x.

(** The value [m * 10^e] rounded to the nearest binary64 (ties to even),
    with the sign [neg]: the rounding applied to numeric literals and to
    the result of [parseFloat]. *)
Definition of_decimal (neg : bool) (m : Z) (e : Z) : number :=
  match m with
  | Z0 => S754_zero neg
  | Zneg _ => S754_nan
  | Zpos p =>
    match e with
    | Zneg k =>
      let '(q, e', l) := SFdiv_core_binary prec emax m 0 (Z.pow 10 (Zpos k)) 0 in
      binary_round_aux prec emax neg q e' l
    | _ => binary_round prec emax neg (Pos.mul p (Z.to_pos (Z.pow 10 e))) 0
    end
  end.

(** *** Strings *)

(** [!s] for a property read that may be missing: [undefined] and the
    empty string are falsy, every other string is truthy. *)
Definition falsy (v : option string) : bool :=
  match v with
  | None => true
  | Some EmptyString => true
  | Some (String _ _) => false
  end.

(** White space skipped by [parseFloat] (the ASCII part of it). *)
Definition is_white (c : ascii) : bool :=
  let n := Z.of_nat (nat_of_ascii c) in
  ((9 <=? n) && (n <=? 13)) || (n =? 32).

Fixpoint trim_start (s : string) : string :=
  match s with
  | String c r => if is_white c then trim_start r else s
  | EmptyString => s
  end.

Definition digit_of (c : ascii) : option Z :=
  let n := Z.of_nat (nat_of_ascii c) in
  if (48 <=? n) && (n <=? 57) then Some (n - 48) else None.

(** Reads the longest run of decimal digits at the head of [s], continuing
    the value [acc] and the digit count [cnt]. *)
Fixpoint read_digits (s : string) (acc cnt : Z) : Z * Z * string :=
  match s with
  | String c r =>
    match digit_of c with
    | Some d => read_digits r (10 * acc + d) (cnt + 1)
    | None => (acc, cnt, s)
    end
  | EmptyString => (acc, cnt, s)
  end.

(** [ExponentPart], when one is present at the head of [s]; an [e] that is
    not followed by digits is not part of the literal. *)
Definition read_exponent (s : string) : Z :=
  match s with
  | String c r =>
    if (Ascii.eqb c "e" || Ascii.eqb c "E")%char then
      let '(neg, r') :=
        match r with
        | String "+"%char t => (false, t)
        | String "-"%char t => (true, t)
        | _ => (false, r)
        end in
      let '(v, n, _) := read_digits r' 0 0 in
      if n =? 0 then 0 else if neg then - v else v
    else 0
  | EmptyString => 0
  end.

(** The longest prefix of [s] that is a [StrUnsignedDecimalLiteral], as a
    number of sign [neg]; NaN when there is none. *)
Definition read_unsigned (neg : bool) (s : string) : number :=
  if String.prefix "Infinity" s then S754_infinity neg
  else
    let '(ip, ni, r) := read_digits s 0 0 in
    let '(m, nf, r') :=
      match r with
      | String "."%char t => read_digits t ip 0
      | _ => (ip, 0, r)
      end in
    if ni + nf =? 0 then S754_nan
    else of_decimal neg m (read_exponent r' - nf).

Definition parseFloat (s : string) : number :=
  match trim_start s with
  | String "+"%char r => read_unsigned false r
  | String "-"%char r => read_unsigned true r
  | t => read_unsigned false t
  end.

(** Numeric literals of the component. *)
Definition lit_1_03 : number := Eval vm_compute in of_decimal false 103 (-2).
Definition lit_0_97 : number := Eval vm_compute in of_decimal false 97 (-2).
Definition lit_0_3 : number := Eval vm_compute in of_decimal false 3 (-1).
Definition lit_0_2 : number := Eval vm_compute in of_decimal false 2 (-1).
Definition lit_0_4 : number := Eval vm_compute in of_decimal false 4 (-1).
Definition lit_1 : number := Eval vm_compute in of_decimal false 1 0.
Definition lit_0_85 : number := Eval vm_compute in of_decimal false 85 (-2).
Definition lit_0_73 : number := Eval vm_compute in of_decimal false 73 (-2).
Definition lit_460 : number := Eval vm_compute in of_decimal false 460 0.

Definition zero : number := S754_zero false.
Definition infinity : number := S754_infinity false.

(** *** Devices for reasoning about rounding *)

(** The second half of [binary_round_aux]: the rounded mantissa [m] is
    shifted once more when rounding carried into a new bit, and the result
    is classified. *)
Definition renorm (s : bool) (m e : Z) : number :=
  let '(mrs, e') := shr_fexp prec emax m e loc_Exact in
  match shr_m mrs with
  | Z0 => S754_zero s
  | Zpos m' => if e' <=? emax - prec then S754_finite s m' e' else S754_infinity s
  | Zneg _ => S754_nan
  end.

(** [m * 2^-1074] lies strictly between its products by 0.97 and 1.03. *)
Definition check_small (m : positive) : bool :=
  let p := S754_finite false m (-1074) in
  SFltb p (mul p lit_1_03) && SFltb (mul p lit_0_97) p.

(** [m * 2^-1074] is below neither product by 1.03 nor above its product
    by 0.97. *)
Definition check_stuck (m : positive) : bool :=
  let p := S754_finite false m (-1074) in
  negb (SFltb p (mul p lit_1_03)) && negb (SFltb (mul p lit_0_97) p).

End JS.

(** ** The component *)

Module GoodsManagement.

Import JS.

(** [predictions.up] and [predictions.down]: objects keyed by the day
    offset. *)
Record PredictionBlock := {
  up : gmap Z number;
  down : gmap Z number
}.

Record SupplierPerformance := {
  onTimeDelivery : string;
  qualityScore : string;
  riskLevel : string
}.

(** An entry of [goods]: the spread of [formData] followed by the four
    computed properties. *)
Record GoodsRecord := {
  fields : gmap string string;
  id : Z;
  currentPrice : number;
  predictions : PredictionBlock;
  supplierPerformance : SupplierPerformance
}.

(** Why the awaited [axios.get] rejects.  The request is made with the
    library's default configuration: it rejects when no response arrives
    and when the status is outside 2xx, and it does not reject on a body
    that is not JSON (see [RawText]). *)
Inductive FetchFailure :=
  | NetworkError
  | BadStatus (code : Z).

(** What the [catch] clause of [fetchExchangeRate] can receive. *)
Inductive Thrown :=
  | AxiosError (reason : FetchFailure)
  | TypeError.

(** The five [useState] cells, and the browser console next to them; a
    console line keeps the two arguments of [console.error]. *)
Record State := {
  goods : list GoodsRecord;
  loading : bool;
  error : string;
  exchangeRate : option (gmap string number);
  formData : gmap string string;
  console : list (string * Thrown)
}.

Definition emptyForm : gmap string string :=
  {[ "goodsId" := ""; "goodsName" := ""; "cost" := ""; "price" := "";
     "date" := ""; "supplierId" := ""; "supplierName" := "" ]}.

Definition initial : State :=
  {| goods := []; loading := false; error := ""; exchangeRate := None;
     formData := emptyForm; console := [] |}.

(** *** State setters *)

Definition setGoods (f : list GoodsRecord -> list GoodsRecord) (s : State) : State :=
  {| goods := f (goods s); loading := loading s; error := error s;
     exchangeRate := exchangeRate s; formData := formData s; console := console s |}.

Definition setLoading (b : bool) (s : State) : State :=
  {| goods := goods s; loading := b; error := error s;
     exchangeRate := exchangeRate s; formData := formData s; console := console s |}.

Definition setError (msg : string) (s : State) : State :=
  {| goods := goods s; loading := loading s; error := msg;
     exchangeRate := exchangeRate s; formData := formData s; console := console s |}.

Definition setExchangeRate (r : option (gmap string number)) (s : State) : State :=
  {| goods := goods s; loading := loading s; error := error s;
     exchangeRate := r; formData := formData s; console := console s |}.

Definition setFormData (f : gmap string string -> gmap string string) (s : State) : State :=
  {| goods := goods s; loading := loading s; error := error s;
     exchangeRate := exchangeRate s; formData := f (formData s); console := console s |}.

Definition console_error (msg : string) (err : Thrown) (s : State) : State :=
  {| goods := goods s; loading := loading s; error := error s;
     exchangeRate := exchangeRate s; formData := formData s;
     console := console s ++ [(msg, err)] |}.

(** The keys of [predictions.up] and [predictions.down]. *)
Definition horizons : list Z := [30; 50; 60].

(** *** fetchExchangeRate *)

(** [response.data]: a [null] body, on which reading [.rates] throws
    inside the [try] block; a body that is not JSON, which the library
    hands over as the text it received (a string has no [rates]); or a
    JSON body with its [rates] property ([None] when it has none). *)
Inductive ResponseData :=
  | NoBody
  | RawText (text : string)
  | Body (rates : option (gmap string number)).

(** What the awaited request settles to. *)
Inductive AxiosOutcome :=
  | Rejected (reason : FetchFailure)
  | Resolved (data : ResponseData).

Definition fallbackRates : gmap string number :=
  {[ "USD" := lit_1; "EUR" := lit_0_85; "GBP" := lit_0_73; "NGN" := lit_460 ]}.

(** The body of the [try] block up to the argument of [setExchangeRate]. *)
Definition response_rates (o : AxiosOutcome) : Thrown + option (gmap string number) :=
  match o with
  | Rejected reason => inl (AxiosError reason)
  | Resolved NoBody => inl TypeError
  | Resolved (RawText _) => inr None
  | Resolved (Body rates) => inr rates
  end.

Definition fetchExchangeRate (o : AxiosOutcome) (s : State) : State :=
  match response_rates o with
  | inr rates => setExchangeRate rates s
  | inl err =>
    let s := console_error "Error fetching exchange rate:" err s in
    setExchangeRate (Some fallbackRates) s
  end.

(** *** handleInputChange *)

Definition handleInputChange (name value : string) (s : State) : State :=
  setFormData (fun prev => <[ name := value ]> prev) s.

(** *** handleSubmit *)

Definition requiredFields : list string :=
  ["goodsId"; "goodsName"; "cost"; "price"; "date"; "supplierId"; "supplierName"].

(** The condition of the validation [if]. *)
Definition someFieldMissing (fd : gmap string string) : bool :=
  falsy (fd !! "goodsId") || falsy (fd !! "goodsName") || falsy (fd !! "cost")
  || falsy (fd !! "price") || falsy (fd !! "date") || falsy (fd !! "supplierId")
  || falsy (fd !! "supplierName").

(** [parseFloat(formData.price)]; a missing property prints as
    ["undefined"]. *)
Definition parsedPrice (fd : gmap string string) : number :=
  parseFloat (default "undefined" (fd !! "price")).

Definition makePredictions (fd : gmap string string) : PredictionBlock :=
  {| up := {[ 30 := mul (parsedPrice fd) lit_1_03;
              50 := mul (parsedPrice fd) lit_1_03;
              60 := mul (parsedPrice fd) lit_1_03 ]};
     down := {[ 30 := mul (parsedPrice fd) lit_0_97;
                50 := mul (parsedPrice fd) lit_0_97;
                60 := mul (parsedPrice fd) lit_0_97 ]} |}.

(** The three [Math.random()] draws, in evaluation order. *)
Record Draws := { draw1 : number; draw2 : number; draw3 : number }.

Definition makeSupplierPerformance (r : Draws) : SupplierPerformance :=
  {| onTimeDelivery := if gt (draw1 r) lit_0_3 then "Good" else "Poor";
     qualityScore := if gt (draw2 r) lit_0_2 then "High" else "Low";
     riskLevel := if gt (draw3 r) lit_0_4 then "Low" else "High" |}.

Definition newGoods (fd : gmap string string) (now : Z) (r : Draws) : GoodsRecord :=
  {| fields := fd;
     id := now;
     currentPrice := parsedPrice fd;
     predictions := makePredictions fd;
     supplierPerformance := makeSupplierPerformance r |}.

(** [now] is the value of [Date.now()], [r] the random draws. *)
Definition handleSubmit (now : Z) (r : Draws) (s : State) : State :=
  let fd := formData s in
  let s := setLoading true s in
  let s := setError "" s in
  if someFieldMissing fd then
    let s := setError "Please fill in all fields" s in
    setLoading false s
  else
    let s := setGoods (fun prev => prev ++ [newGoods fd now r]) s in
    let s := setFormData (fun _ => emptyForm) s in
    setLoading false s.

(** *** The component as a state machine *)

Inductive Event :=
  | FetchSettled (o : AxiosOutcome)
  | InputChange (name value : string)
  | Submit (now : Z) (r : Draws).

Definition step (s : State) (ev : Event) : State :=
  match ev with
  | FetchSettled o => fetchExchangeRate o s
  | InputChange name value => handleInputChange name value s
  | Submit now r => handleSubmit now r s
  end.

Definition run (s : State) (evs : list Event) : State := fold_left step evs s.

(** *** Vocabulary of the statements *)

(** The field [k] of the form holds a non-empty string. *)
Definition filled (fd : gmap string string) (k : string) : bool :=
  match fd !! k with
  | Some (String _ _) => true
  | _ => false
  end.

Definition allFilled (fd : gmap string string) : bool :=
  forallb (filled fd) requiredFields.

(** The smallest price whose projections leave it: [17 * 2^-1074]. *)
Definition smallestMoving : number := S754_finite false 17 (-1074).

End GoodsManagement.

(** ** Sample sessions *)

Module Samples.

Import JS GoodsManagement.

(** Typing the seven fields of the form. *)
Definition filling (cost price : string) : list Event :=
  [InputChange "goodsId" "G1"; InputChange "goodsName" "Widget";
   InputChange "cost" cost; InputChange "price" price;
   InputChange "date" "2024-01-01"; InputChange "supplierId" "S1";
   InputChange "supplierName" "Acme"].

Definition typed (cost price : string) : State := run initial (filling cost price).

Definition half : number := Eval vm_compute in of_decimal false 5 (-1).
Definition tenth : number := Eval vm_compute in of_decimal false 1 (-1).

Definition highDraws : Draws := {| draw1 := half; draw2 := half; draw3 := half |}.
Definition lowDraws : Draws := {| draw1 := tenth; draw2 := tenth; draw3 := tenth |}.

End Samples.

(** ** What the goods page shows *)

Module GoodsView.

Import JS GoodsManagement.

Definition getSupplierRiskColor (risk : string) : string :=
  if String.eqb risk "High" then "error" else "success".

(** A chip of the supplier table: its label and its colour. *)
Record Chip := { label : string; color : string }.

(** A row of the supplier table; the name cell is empty when the record
    has no [supplierName]. *)
Record SupplierRow := {
  supplierCell : option string;
  onTimeChip : Chip;
  qualityChip : Chip;
  riskChip : Chip
}.

Definition supplierRow (item : GoodsRecord) : SupplierRow :=
  {| supplierCell := fields item !! "supplierName";
     onTimeChip :=
       {| label := onTimeDelivery (supplierPerformance item);
          color := if String.eqb (onTimeDelivery (supplierPerformance item)) "Good"
                   then "success" else "error" |};
     qualityChip :=
       {| label := qualityScore (supplierPerformance item);
          color := if String.eqb (qualityScore (supplierPerformance item)) "High"
                   then "success" else "error" |};
     riskChip :=
       {| label := riskLevel (supplierPerformance item);
          color := getSupplierRiskColor (riskLevel (supplierPerformance item)) |} |}.

(** [goods.map(...)] of the last table. *)
Definition supplierTable (s : State) : list SupplierRow := map supplierRow (goods s).

(** [{error && <Alert>}] and [disabled={loading}]. *)
Definition alertShown (s : State) : bool := negb (falsy (Some (error s))).
Definition submitDisabled (s : State) : bool := loading s.

(** *** Kinds of events *)

Definition isSubmit (ev : Event) : bool :=
  match ev with Submit _ _ => true | _ => false end.

Definition isFetch (ev : Event) : bool :=
  match ev with FetchSettled _ => true | _ => false end.

(** A settled fetch on which the [try] block throws. *)
Definition isFailedFetch (ev : Event) : bool :=
  match ev with
  | FetchSettled o => match response_rates o with inl _ => true | inr _ => false end
  | _ => false
  end.

(** What the failed fetches among [evs] threw, in order. *)
Fixpoint thrownBy (evs : list Event) : list Thrown :=
  match evs with
  | [] => []
  | FetchSettled o :: rest =>
    match response_rates o with
    | inl t => t :: thrownBy rest
    | inr _ => thrownBy rest
    end
  | _ :: rest => thrownBy rest
  end.

(** *** The price field *)

(** The price is typed into a field of type number, which hands
    [handleInputChange] the empty string or a valid floating-point number;
    such a number begins with an optional minus sign followed by a digit,
    or by a point and a digit. *)
Definition is_digit (c : ascii) : bool :=
  match digit_of c with Some _ => true | None => false end.

Definition unsignedHead (s : string) : bool :=
  match s with
  | String c r =>
    is_digit c ||
    (Ascii.eqb c "." && match r with String d _ => is_digit d | EmptyString => false end)
  | EmptyString => false
  end.

Definition numberHead (s : string) : bool :=
  match s with
  | String "-"%char r => unsignedHead r
  | _ => unsignedHead s
  end.

(** Zero, an infinity or NaN. *)
Definition degenerate (x : number) : bool :=
  match x with S754_finite _ _ _ => false | _ => true end.

(** [-17 * 2^-1074] and [-Infinity]. *)
Definition largestMovingNegative : number := S754_finite true 17 (-1074).
Definition negInfinity : number := S754_infinity true.

End GoodsView.

(** ** Time series analysis *)

(** The [TimeSeriesAnalysis] component: [handleAnalyze], split at its
    [await], and [renderBottleneckGraph], over the JavaScript values that
    JSON carries. *)
Module TimeSeries.

Import JS.

(** *** Values *)

#[local] Set Warnings "-register-all".

Inductive Value :=
  | VUndefined
  | VNull
  | VBool (b : bool)
  | VNumber (n : number)
  | VString (s : string)
  | VArray (items : list Value)
  | VObject (props : list (string * Value)).

(** [!!v] *)
Definition truthy (v : Value) : bool :=
  match v with
  | VUndefined | VNull => false
  | VBool b => b
  | VNumber (S754_zero _) | VNumber S754_nan => false
  | VNumber _ => true
  | VString EmptyString => false
  | VString (String _ _) => true
  | VArray _ | VObject _ => true
  end.

(** The property list of an object is kept in source order; of two
    entries with one key the later is the property's value. *)
Fixpoint own_prop (name : string) (props : list (string * Value)) : option Value :=
  match props with
  | [] => None
  | (k, v) :: rest =>
    match own_prop name rest with
    | Some w => Some w
    | None => if String.eqb k name then Some v else None
    end
  end.

(** [v.name] for a value that is neither [null] nor [undefined] and a
    name that no string, number, boolean or array has as a member. *)
Definition get (v : Value) (name : string) : Value :=
  match v with
  | VObject props => default VUndefined (own_prop name props)
  | _ => VUndefined
  end.

(** [v?.name] *)
Definition optional (v : Value) (name : string) : Value :=
  match v with
  | VUndefined | VNull => VUndefined
  | _ => get v name
  end.

(** *** JSON.parse *)

Definition code (c : ascii) : Z := Z.of_nat (nat_of_ascii c).

Definition byte (n : Z) : ascii := ascii_of_nat (Z.to_nat n).

(** Tab, line feed, carriage return and space. *)
Definition is_json_white (c : ascii) : bool :=
  (code c =? 9) || (code c =? 10) || (code c =? 13) || (code c =? 32).

Fixpoint skip_white (s : string) : string :=
  match s with
  | String c r => if is_json_white c then skip_white r else s
  | EmptyString => s
  end.

(** The rest of [s] after the prefix [p], when [s] starts with it. *)
Fixpoint strip (p s : string) : option string :=
  match p, s with
  | EmptyString, _ => Some s
  | String a p', String b s' => if Ascii.eqb a b then strip p' s' else None
  | String _ _, EmptyString => None
  end.

Definition hex_of (c : ascii) : option Z :=
  let n := code c in
  if (48 <=? n) && (n <=? 57) then Some (n - 48)
  else if (65 <=? n) && (n <=? 70) then Some (n - 55)
  else if (97 <=? n) && (n <=? 102) then Some (n - 87)
  else None.

Definition hex4 (a b c d : ascii) : option Z :=
  match hex_of a, hex_of b, hex_of c, hex_of d with
  | Some x, Some y, Some z, Some w => Some (((x * 16 + y) * 16 + z) * 16 + w)
  | _, _, _, _ => None
  end.

(** The character a one-letter escape stands for. *)
Definition escape_of (c : ascii) : option ascii :=
  let n := code c in
  if (n =? 34) || (n =? 92) || (n =? 47) then Some c
  else if n =? 98 then Some (byte 8)
  else if n =? 102 then Some (byte 12)
  else if n =? 110 then Some (byte 10)
  else if n =? 114 then Some (byte 13)
  else if n =? 116 then Some (byte 9)
  else None.

(** What a string literal is made of: characters of the text, and UTF-16
    code units written as [\uXXXX]. *)
Inductive StrItem :=
  | Raw (c : ascii)
  | Unit16 (u : Z).

Definition cons_item (i : StrItem) (o : option (list StrItem * string)) :
  option (list StrItem * string) :=
  match o with
  | Some (items, rest) => Some (i :: items, rest)
  | None => None
  end.

(** Reads a string literal after its opening quote. *)
Fixpoint read_string (s : string) : option (list StrItem * string) :=
  match s with
  | EmptyString => None
  | String c r =>
    if code c =? 34 then Some ([], r)
    else if code c =? 92 then
      match r with
      | EmptyString => None
      | String e r1 =>
        if code e =? 117 then
          match r1 with
          | String h1 (String h2 (String h3 (String h4 r2))) =>
            match hex4 h1 h2 h3 h4 with
            | Some u => cons_item (Unit16 u) (read_string r2)
            | None => None
            end
          | _ => None
          end
        else
          match escape_of e with
          | Some x => cons_item (Raw x) (read_string r1)
          | None => None
          end
      end
    else if code c <? 32 then None
    else cons_item (Raw c) (read_string r)
  end.

Definition utf8 (cp : Z) : string :=
  if cp <? 128 then String (byte cp) ""
  else if cp <? 2048 then
    String (byte (192 + cp / 64)) (String (byte (128 + cp mod 64)) "")
  else if cp <? 65536 then
    String (byte (224 + cp / 4096))
      (String (byte (128 + (cp / 64) mod 64)) (String (byte (128 + cp mod 64)) ""))
  else
    String (byte (240 + cp / 262144))
      (String (byte (128 + (cp / 4096) mod 64))
         (String (byte (128 + (cp / 64) mod 64))
            (String (byte (128 + cp mod 64)) ""))).

(** The string value as UTF-8 text; a surrogate pair is one character. *)
Fixpoint encode (items : list StrItem) : string :=
  match items with
  | [] => ""
  | Raw c :: rest => String c (encode rest)
  | Unit16 hi :: rest =>
    match rest with
    | Unit16 lo :: rest' =>
      if (55296 <=? hi) && (hi <=? 56319) && (56320 <=? lo) && (lo <=? 57343)
      then String.append (utf8 (65536 + (hi - 55296) * 1024 + (lo - 56320))) (encode rest')
      else String.append (utf8 hi) (encode rest)
    | _ => String.append (utf8 hi) (encode rest)
    end
  end.

(** [ExponentPart] of a JSON number: an [e] must be followed by digits. *)
Definition read_json_exponent (s : string) : option (Z * string) :=
  match s with
  | String c r =>
    if (code c =? 101) || (code c =? 69) then
      let '(neg, r') :=
        match r with
        | String "+"%char t => (false, t)
        | String "-"%char t => (true, t)
        | _ => (false, r)
        end in
      let '(v, n, rest) := read_digits r' 0 0 in
      if n =? 0 then None else Some (if neg then - v else v, rest)
    else Some (0, s)
  | EmptyString => Some (0, s)
  end.

(** A JSON number at the head of [s]: no leading zeros, digits on both
    sides of the point. *)
Definition read_number (s : string) : option (number * string) :=
  let '(neg, s1) :=
    match s with
    | String "-"%char r => (true, r)
    | _ => (false, s)
    end in
  match s1 with
  | EmptyString => None
  | String c r =>
    match digit_of c with
    | None => None
    | Some d =>
      let '(ip, r1) :=
        if d =? 0 then (0, r)
        else let '(v, _, rest) := read_digits s1 0 0 in (v, rest) in
      let frac :=
        match r1 with
        | String "."%char t =>
          let '(m, nf, r2) := read_digits t ip 0 in
          if nf =? 0 then None else Some (m, nf, r2)
        | _ => Some (ip, 0, r1)
        end in
      match frac with
      | None => None
      | Some (m, nf, r2) =>
        match read_json_exponent r2 with
        | None => None
        | Some (e, r3) => Some (of_decimal neg m (e - nf), r3)
        end
      end
    end
  end.

(** A JSON value at the head of [s]; [parse_elements] and [parse_members]
    read what follows an opening bracket or brace.  Each call spends one
    unit of [fuel]. *)
Fixpoint parse_value (fuel : nat) (s : string) : option (Value * string) :=
  match fuel with
  | O => None
  | S fuel' =>
    match s with
    | EmptyString => None
    | String c r =>
      if code c =? 123 then
        match skip_white r with
        | String c' r' =>
          if code c' =? 125 then Some (VObject [], r')
          else parse_members fuel' (skip_white r) []
        | EmptyString => None
        end
      else if code c =? 91 then
        match skip_white r with
        | String c' r' =>
          if code c' =? 93 then Some (VArray [], r')
          else parse_elements fuel' (skip_white r) []
        | EmptyString => None
        end
      else if code c =? 34 then
        match read_string r with
        | Some (items, rest) => Some (VString (encode items), rest)
        | None => None
        end
      else
        match strip "null" s, strip "true" s, strip "false" s with
        | Some rest, _, _ => Some (VNull, rest)
        | _, Some rest, _ => Some (VBool true, rest)
        | _, _, Some rest => Some (VBool false, rest)
        | None, None, None =>
          match read_number s with
          | Some (n, rest) => Some (VNumber n, rest)
          | None => None
          end
        end
    end
  end
with parse_elements (fuel : nat) (s : string) (acc : list Value) :
  option (Value * string) :=
  match fuel with
  | O => None
  | S fuel' =>
    match parse_value fuel' (skip_white s) with
    | None => None
    | Some (v, r) =>
      match skip_white r with
      | String c r' =>
        if code c =? 44 then parse_elements fuel' r' (v :: acc)
        else if code c =? 93 then Some (VArray (rev (v :: acc)), r')
        else None
      | EmptyString => None
      end
    end
  end
with parse_members (fuel : nat) (s : string) (acc : list (string * Value)) :
  option (Value * string) :=
  match fuel with
  | O => None
  | S fuel' =>
    match skip_white s with
    | String q r =>
      if code q =? 34 then
        match read_string r with
        | None => None
        | Some (items, r1) =>
          match skip_white r1 with
          | String c r2 =>
            if code c =? 58 then
              match parse_value fuel' (skip_white r2) with
              | None => None
              | Some (v, r3) =>
                match skip_white r3 with
                | String c' r4 =>
                  if code c' =? 44 then
                    parse_members fuel' r4 ((encode items, v) :: acc)
                  else if code c' =? 125 then
                    Some (VObject (rev ((encode items, v) :: acc)), r4)
                  else None
                | EmptyString => None
                end
              end
            else None
          | EmptyString => None
          end
        end
      else None
    | EmptyString => None
    end
  end.

(** [JSON.parse(text)]; [None] stands for the [SyntaxError] it throws. *)
Definition JSON_parse (text : string) : option Value :=
  match parse_value (2 * String.length text + 2) (skip_white text) with
  | Some (v, rest) =>
    match skip_white rest with
    | EmptyString => Some v
    | String _ _ => None
    end
  | None => None
  end.

(** *** State *)

(** The four [useState] cells, and next to them the network: the bodies of
    the requests posted so far and the number still awaiting a response. *)
Record State := {
  inputData : string;
  loading : bool;
  error : Value;
  analysis : Value;
  posted : list Value;
  pending : nat
}.

Definition initial : State :=
  {| inputData := ""; loading := false; error := VString ""; analysis := VNull;
     posted := []; pending := 0 |}.

Definition setInputData (text : string) (s : State) : State :=
  {| inputData := text; loading := loading s; error := error s;
     analysis := analysis s; posted := posted s; pending := pending s |}.

Definition setLoading (b : bool) (s : State) : State :=
  {| inputData := inputData s; loading := b; error := error s;
     analysis := analysis s; posted := posted s; pending := pending s |}.

Definition setError (v : Value) (s : State) : State :=
  {| inputData := inputData s; loading := loading s; error := v;
     analysis := analysis s; posted := posted s; pending := pending s |}.

Definition setAnalysis (v : Value) (s : State) : State :=
  {| inputData := inputData s; loading := loading s; error := error s;
     analysis := v; posted := posted s; pending := pending s |}.

(** [axios.post(url, body)]: the request leaves. *)
Definition post (body : Value) (s : State) : State :=
  {| inputData := inputData s; loading := loading s; error := error s;
     analysis := analysis s; posted := posted s ++ [body];
     pending := S (pending s) |}.

(** *** handleAnalyze *)

(** What the [catch] clause can receive: the [SyntaxError] of
    [JSON.parse], which has no [response], or the error of a rejected
    request with its [response.data] when a response came. *)
Inductive Caught :=
  | SyntaxError
  | RequestFailed (response : option Value).

(** [err.response?.data?.error] *)
Definition serverError (err : Caught) : Value :=
  match err with
  | SyntaxError => VUndefined
  | RequestFailed None => VUndefined
  | RequestFailed (Some data) => optional data "error"
  end.

(** [err.response?.data?.error || 'Error analyzing time series data'] *)
Definition errorMessage (err : Caught) : Value :=
  if truthy (serverError err) then serverError err
  else VString "Error analyzing time series data".

(** How the awaited request settles. *)
Inductive PostOutcome :=
  | PostResolved (data : Value)
  | PostRejected (response : option Value).

(** [handleAnalyze] up to its [await]: when [JSON.parse] throws, the
    [catch] and [finally] clauses run at once. *)
Definition handleAnalyze (s : State) : State :=
  let text := inputData s in
  let s := setLoading true s in
  let s := setError (VString "") s in
  match JSON_parse text with
  | None =>
    let s := setError (errorMessage SyntaxError) s in
    setLoading false s
  | Some parsedData => post (VObject [("data", parsedData)]) s
  end.

(** [handleAnalyze] from its [await] on. *)
Definition resume (o : PostOutcome) (s : State) : State :=
  match o with
  | PostResolved data =>
    let s := setAnalysis data s in
    setLoading false s
  | PostRejected response =>
    let s := setError (errorMessage (RequestFailed response)) s in
    setLoading false s
  end.

(** *** The component as a state machine *)

Inductive Event :=
  | Typed (text : string)
  | Click
  | Settled (o : PostOutcome).

(** The button is [disabled={loading}]; a response needs a request. *)
Definition step (s : State) (ev : Event) : State :=
  match ev with
  | Typed text => setInputData text s
  | Click => if loading s then s else handleAnalyze s
  | Settled o =>
    match pending s with
    | O => s
    | S n =>
      resume o
        {| inputData := inputData s; loading := loading s; error := error s;
           analysis := analysis s; posted := posted s; pending := n |}
    end
  end.

Definition run (s : State) (evs : list Event) : State := fold_left step evs s.

(** *** renderBottleneckGraph *)

(** What the chart receives: [data.labels] and [data.datasets[0].data]. *)
Record Chart := { labels : list Value; points : list Value }.

(** [items.map(b => b.name)]; [None] stands for the [TypeError] of reading
    a member of [null] or [undefined]. *)
Fixpoint map_member (name : string) (items : list Value) : option (list Value) :=
  match items with
  | [] => Some []
  | b :: rest =>
    match b with
    | VUndefined | VNull => None
    | _ =>
      match map_member name rest with
      | Some vs => Some (get b name :: vs)
      | None => None
      end
    end
  end.

(** [inl tt] stands for a [TypeError], [inr None] for [null]. *)
Definition renderBottleneckGraph (analysis : Value) : unit + option Chart :=
  if negb (truthy (optional analysis "bottlenecks")) then inr None
  else
    match get analysis "bottlenecks" with
    | VArray items =>
      match map_member "step" items, map_member "impact" items with
      | Some steps, Some impacts =>
        inr (Some {| labels := steps; points := impacts |})
      | _, _ => inl tt
      end
    | _ => inl tt
    end.

(** *** Vocabulary of the statements *)

Definition isResolved (ev : Event) : bool :=
  match ev with Settled (PostResolved _) => true | _ => false end.

(** An array none of whose items is [null] or [undefined]. *)
Definition noHoles (items : list Value) : bool :=
  forallb (fun b => match b with VUndefined | VNull => false | _ => true end) items.

End TimeSeries.

(** ** Rounding of binary64 products *)

Section Rounding.

Import JS.

Lemma digits2_size p : digits2_pos p = Pos.size p.
Proof. induction p; simpl; congruence. Qed.

Lemma digits2_bounds p :
  2 ^ (Zpos (digits2_pos p) - 1) <= Zpos p < 2 ^ Zpos (digits2_pos p).
Proof.
  rewrite digits2_size. split.
  - pose proof (Pos.size_le p) as H.
    apply Pos2Z.pos_le_pos in H. rewrite Pos2Z.inj_pow in H.
    replace (Zpos (Pos.size p)) with (Z.succ (Zpos (Pos.size p) - 1)) in H by lia.
    rewrite Z.pow_succ_r in H by lia. change (Zpos p~0) with (2 * Zpos p) in H. lia.
  - pose proof (Pos.size_gt p) as H.
    apply Pos2Z.pos_lt_pos in H. by rewrite Pos2Z.inj_pow in H.
Qed.

Lemma digits2_le p k : 0 <= k -> Zpos p < 2 ^ k -> Zpos (digits2_pos p) <= k.
Proof.
  intros Hk Hp. destruct (digits2_bounds p) as [Hlo _].
  destruct (Z_le_gt_dec (Zpos (digits2_pos p)) k) as [|Hgt]; [done|].
  assert (2 ^ k <= 2 ^ (Zpos (digits2_pos p) - 1)) by (apply Z.pow_le_mono_r; lia).
  lia.
Qed.

Lemma digits2_ge p k : 0 <= k -> 2 ^ k <= Zpos p -> k + 1 <= Zpos (digits2_pos p).
Proof.
  intros Hk Hp. destruct (digits2_bounds p) as [_ Hhi].
  destruct (Z_le_gt_dec (k + 1) (Zpos (digits2_pos p))) as [|Hgt]; [done|].
  assert (2 ^ Zpos (digits2_pos p) <= 2 ^ k) by (apply Z.pow_le_mono_r; lia).
  lia.
Qed.

Lemma shr_1_m mrs : 0 <= shr_m mrs -> shr_m (shr_1 mrs) = shr_m mrs / 2.
Proof.
  destruct mrs as [m r s]; cbn [shr_m]. intros Hm.
  destruct m as [|[p|p|]|p]; cbn [shr_1 shr_m]; try lia.
  - reflexivity.
  - apply Z.div_unique with 1; lia.
  - apply Z.div_unique with 0; lia.
  - reflexivity.
Qed.

Lemma iter_shr_1_m p : forall mrs,
  0 <= shr_m mrs ->
  shr_m (SpecFloat.iter_pos shr_1 p mrs) = shr_m mrs / 2 ^ Zpos p.
Proof.
  induction p as [p IH|p IH|]; intros mrs Hm; cbn [SpecFloat.iter_pos].
  - assert (Hp : 0 < 2 ^ Zpos p) by (apply Z.pow_pos_nonneg; lia).
    assert (E : 2 ^ Zpos p~1 = 2 * 2 ^ Zpos p * 2 ^ Zpos p).
    { rewrite Pos2Z.inj_xI, Z.pow_add_r, Z.pow_mul_r by lia.
      change (2 ^ 2) with (2 * 2). rewrite Z.pow_mul_l. change (2 ^ 1) with 2. lia. }
    assert (H1 : 0 <= shr_m (shr_1 mrs))
      by (rewrite shr_1_m by done; apply Z.div_pos; lia).
    assert (H2 : 0 <= shr_m (SpecFloat.iter_pos shr_1 p (shr_1 mrs)))
      by (rewrite IH by done; apply Z.div_pos; lia).
    rewrite IH, IH, shr_1_m, E by done.
    rewrite !Z.div_div by lia. f_equal. lia.
  - assert (Hp : 0 < 2 ^ Zpos p) by (apply Z.pow_pos_nonneg; lia).
    assert (E : 2 ^ Zpos p~0 = 2 ^ Zpos p * 2 ^ Zpos p).
    { change (Zpos p~0) with (2 * Zpos p). rewrite Z.pow_mul_r by lia.
      change (2 ^ 2) with (2 * 2). rewrite Z.pow_mul_l. lia. }
    assert (H2 : 0 <= shr_m (SpecFloat.iter_pos shr_1 p mrs))
      by (rewrite IH by done; apply Z.div_pos; lia).
    rewrite IH, IH, E by done.
    rewrite !Z.div_div by lia. f_equal.
  - by apply shr_1_m.
Qed.

Lemma round_nearest_even_cases m l :
  round_nearest_even m l = m \/ round_nearest_even m l = m + 1.
Proof.
  destruct l as [|[]]; simpl; auto. destruct (Z.even m); auto.
Qed.


Lemma shr_fexp_shift m e l n :
  0 <= m ->
  n = fexp prec emax (Zdigits2 m + e) - e -> 0 < n ->
  exists mrs, shr_fexp prec emax m e l = (mrs, e + n) /\ shr_m mrs = m / 2 ^ n.
Proof.
  intros Hm Hn Hpos. unfold shr_fexp. rewrite <- Hn.
  destruct n as [|pn|pn]; try lia. cbn [shr].
  eexists. split; [reflexivity|].
  rewrite iter_shr_1_m; by destruct l as [|[]].
Qed.

Lemma shr_fexp_keep m e l :
  fexp prec emax (Zdigits2 m + e) - e <= 0 ->
  shr_fexp prec emax m e l = (shr_record_of_loc m l, e).
Proof.
  intros Hn. unfold shr_fexp, shr.
  destruct (fexp prec emax (Zdigits2 m + e) - e); done || lia.
Qed.

Lemma binary_round_aux_shift s P e0 l n :
  n = fexp prec emax (Zdigits2 (Zpos P) + e0) - e0 -> 0 < n ->
  exists m2, (m2 = Zpos P / 2 ^ n \/ m2 = Zpos P / 2 ^ n + 1) /\
    binary_round_aux prec emax s (Zpos P) e0 l = renorm s m2 (e0 + n).
Proof.
  intros Hn Hpos.
  destruct (shr_fexp_shift (Zpos P) e0 l n) as (mrs & E & Hm); [lia|done|done|].
  unfold binary_round_aux. rewrite E.
  exists (round_nearest_even (shr_m mrs) (loc_of_shr_record mrs)). split.
  - rewrite <- Hm. apply round_nearest_even_cases.
  - reflexivity.
Qed.

Lemma renorm_zero s e : renorm s 0 e = S754_zero s.
Proof.
  unfold renorm, shr_fexp, shr.
  destruct (fexp prec emax (Zdigits2 0 + e) - e) as [|p|p]; try done.
  cbn [shr_record_of_loc]. rewrite iter_shr_1_m by done. done.
Qed.

Lemma renorm_small s m e :
  Zpos m < 2 ^ 53 -> -1074 <= e ->
  renorm s (Zpos m) e =
  if e <=? 971 then S754_finite s m e else S754_infinity s.
Proof.
  intros Hm He. unfold renorm. rewrite shr_fexp_keep; [done|].
  pose proof (digits2_le m 53 ltac:(lia) Hm).
  unfold fexp, emin, prec, emax. cbn [Zdigits2]. lia.
Qed.

Lemma renorm_carry s e :
  -1074 <= e ->
  renorm s (2 ^ 53) e =
  if e + 1 <=? 971 then S754_finite s (2 ^ 52) (e + 1) else S754_infinity s.
Proof.
  intros He. unfold renorm.
  destruct (shr_fexp_shift (2 ^ 53) e loc_Exact 1) as (mrs & E & Hm); [lia| |lia|].
  { change (Zdigits2 (2 ^ 53)) with 54. unfold fexp, emin, prec, emax. lia. }
  rewrite E, Hm. reflexivity.
Qed.


Lemma ltb_finite mx ex my ey :
  ex < ey \/ (ex = ey /\ Zpos mx < Zpos my) ->
  SFltb (S754_finite false mx ex) (S754_finite false my ey) = true.
Proof.
  intros H. unfold SFltb, SFcompare.
  destruct (Z.compare_spec ex ey) as [->|Hlt|Hgt]; [|done|lia].
  change (Pos.compare_cont Eq mx my) with (Pos.compare mx my).
  destruct (Pos.compare_spec mx my) as [->|Hm|Hm]; [lia|done|lia].
Qed.

Lemma renorm_above mx ex m2 e2 :
  -1074 <= e2 -> 0 < m2 <= 2 ^ 53 ->
  ex < e2 \/ (ex = e2 /\ Zpos mx < m2) ->
  SFltb (S754_finite false mx ex) (renorm false m2 e2) = true.
Proof.
  intros He [Hlo Hhi] H.
  destruct (Z.eq_dec m2 (2 ^ 53)) as [->|Hne].
  - rewrite renorm_carry by done.
    destruct (e2 + 1 <=? 971); [|done]. apply ltb_finite. lia.
  - destruct m2 as [|p|p]; try lia.
    rewrite renorm_small by lia.
    destruct (e2 <=? 971); [|done]. apply ltb_finite. lia.
Qed.

Lemma renorm_below mx ex m2 e2 :
  -1074 <= e2 -> 0 <= m2 <= 2 ^ 53 -> ex <= 971 ->
  (m2 < 2 ^ 53 /\ (e2 < ex \/ (e2 = ex /\ m2 < Zpos mx))) \/
  (e2 + 1 < ex \/ (e2 + 1 = ex /\ 2 ^ 52 < Zpos mx)) ->
  SFltb (renorm false m2 e2) (S754_finite false mx ex) = true.
Proof.
  intros He [Hlo Hhi] Hex H.
  destruct (Z.eq_dec m2 (2 ^ 53)) as [->|Hne].
  - rewrite renorm_carry by done.
    destruct (Z.leb_spec (e2 + 1) 971); [|lia]. apply ltb_finite.
    change (Zpos (2 ^ 52)) with (2 ^ 52). lia.
  - destruct m2 as [|p|p]; try lia.
    + by rewrite renorm_zero.
    + rewrite renorm_small by lia.
      destruct (Z.leb_spec e2 971); [|lia]. apply ltb_finite. lia.
Qed.

(** What [bounded] says of a mantissa and its exponent. *)
Lemma bounded_inv mx ex :
  bounded prec emax mx ex = true ->
  -1074 <= ex <= 971 /\ Zpos mx < 2 ^ 53 /\ (ex = -1074 \/ 2 ^ 52 <= Zpos mx).
Proof.
  unfold bounded, canonical_mantissa. rewrite andb_true_iff, Z.eqb_eq, Z.leb_le.
  unfold fexp, emin, prec, emax. intros [Hc He].
  destruct (digits2_bounds mx) as [Hlo Hhi].
  assert (Hd : Zpos (digits2_pos mx) <= 53) by lia.
  assert (2 ^ Zpos (digits2_pos mx) <= 2 ^ 53) by (apply Z.pow_le_mono_r; lia).
  split; [lia|]. split; [lia|].
  destruct (Z.eq_dec ex (-1074)); [by left|right].
  replace (Zpos (digits2_pos mx)) with 53 in Hlo by lia. exact Hlo.
Qed.


Lemma check_small_range m : 17 <= Zpos m < 67 -> check_small m = true.
Proof.
  intros H.
  assert (Hall : forallb check_small (map Pos.of_nat (seq 17 50)) = true)
    by (vm_compute; reflexivity).
  rewrite forallb_forall in Hall. apply Hall.
  apply in_map_iff. exists (Pos.to_nat m). split; [apply Pos2Nat.id|].
  apply in_seq. lia.
Qed.

Lemma mul_1_03_above mx ex :
  bounded prec emax mx ex = true ->
  17 <= Zpos mx \/ -1074 < ex ->
  SFltb (S754_finite false mx ex) (mul (S754_finite false mx ex) lit_1_03) = true.
Proof.
  intros Hb Hmin.
  destruct (bounded_inv mx ex Hb) as (He & Hhi & Hlo).
  destruct (Z_lt_le_dec (Zpos mx) 67) as [Hs|Hbig].
  { assert (ex = -1074) as -> by lia.
    pose proof (check_small_range mx ltac:(lia)) as Hc.
    unfold check_small in Hc. by apply andb_true_iff in Hc as [Hc _]. }
  unfold mul, lit_1_03. cbn [SFmul xorb].
  set (P := (mx * 4638707616191611)%positive).
  assert (HP : Zpos P = Zpos mx * 4638707616191611) by (unfold P; lia).
  destruct (digits2_bounds P) as [Hdlo Hdhi].
  set (d := Zpos (digits2_pos P)) in *.
  set (n := fexp prec emax (Zdigits2 (Zpos P) + (ex + -52)) - (ex + -52)).
  assert (Hn : (n = 52 /\ Zpos P < 2 ^ 105) \/ (n = 53 /\ 2 ^ 105 <= Zpos P < 2 ^ 106)).
  { assert (d <= 106) by (apply digits2_le; lia).
    unfold n, fexp, emin, prec, emax. cbn [Zdigits2]. fold d.
    destruct (Z_lt_le_dec (Zpos mx) (2 ^ 52)) as [Hsub|Hnorm].
    - left. assert (d <= 105) by (apply digits2_le; lia). lia.
    - assert (105 <= d) by (apply (digits2_ge P 104); lia).
      destruct (Z.eq_dec d 105) as [E|E].
      + left. rewrite E in *. lia.
      + right. replace d with 106 in * by lia. lia. }
  destruct (binary_round_aux_shift false P (ex + -52) loc_Exact n eq_refl ltac:(lia))
    as (m2 & Hm2 & ->).
  assert (Hq : 2 ^ n * (Zpos P / 2 ^ n) <= Zpos P < 2 ^ n * (Zpos P / 2 ^ n + 1)).
  { assert (0 < 2 ^ n) by (apply Z.pow_pos_nonneg; lia).
    pose proof (Z.mul_div_le (Zpos P) (2 ^ n)). 
    pose proof (Z.mul_succ_div_gt (Zpos P) (2 ^ n)). lia. }
  apply renorm_above; destruct Hn as [[-> HP'] | [-> HP']]; lia.
Qed.


Lemma mul_0_97_below mx ex :
  bounded prec emax mx ex = true ->
  17 <= Zpos mx \/ -1074 < ex ->
  SFltb (mul (S754_finite false mx ex) lit_0_97) (S754_finite false mx ex) = true.
Proof.
  intros Hb Hmin.
  destruct (bounded_inv mx ex Hb) as (He & Hhi & Hlo).
  destruct (Z_lt_le_dec (Zpos mx) 67) as [Hs|Hbig].
  { assert (ex = -1074) as -> by lia.
    pose proof (check_small_range mx ltac:(lia)) as Hc.
    unfold check_small in Hc. by apply andb_true_iff in Hc as [_ Hc]. }
  unfold mul, lit_0_97. cbn [SFmul xorb].
  set (P := (mx * 8736983277098762)%positive).
  assert (HP : Zpos P = Zpos mx * 8736983277098762) by (unfold P; lia).
  destruct (digits2_bounds P) as [Hdlo Hdhi].
  set (d := Zpos (digits2_pos P)) in *.
  set (n := fexp prec emax (Zdigits2 (Zpos P) + (ex + -53)) - (ex + -53)).
  assert (Hn : n = 53 \/ (n = 52 /\ -1074 < ex /\ Zpos P < 2 ^ 105)).
  { assert (d <= 106) by (apply digits2_le; lia).
    unfold n, fexp, emin, prec, emax. cbn [Zdigits2]. fold d.
    destruct (Z_lt_le_dec (Zpos mx) (2 ^ 52)) as [Hsub|Hnorm].
    - left. assert (d <= 105) by (apply digits2_le; lia). lia.
    - assert (105 <= d) by (apply (digits2_ge P 104); lia).
      destruct (Z.eq_dec d 105) as [E|E].
      + rewrite E in *. lia.
      + left. replace d with 106 in * by lia. lia. }
  destruct (binary_round_aux_shift false P (ex + -53) loc_Exact n eq_refl ltac:(lia))
    as (m2 & Hm2 & ->).
  assert (Hq : 2 ^ n * (Zpos P / 2 ^ n) <= Zpos P < 2 ^ n * (Zpos P / 2 ^ n + 1)).
  { assert (0 < 2 ^ n) by (apply Z.pow_pos_nonneg; lia).
    pose proof (Z.mul_div_le (Zpos P) (2 ^ n)).
    pose proof (Z.mul_succ_div_gt (Zpos P) (2 ^ n)). lia. }
  assert (0 <= Zpos P / 2 ^ n) by (apply Z.div_pos; [lia|apply Z.pow_pos_nonneg; lia]).
  apply renorm_below; destruct Hn as [-> | (-> & Hex & HP')]; lia.
Qed.

Lemma check_stuck_range m : Zpos m < 17 -> check_stuck m = true.
Proof.
  intros H.
  assert (Hall : forallb check_stuck (map Pos.of_nat (seq 1 16)) = true)
    by (vm_compute; reflexivity).
  rewrite forallb_forall in Hall. apply Hall.
  apply in_map_iff. exists (Pos.to_nat m). split; [apply Pos2Nat.id|].
  apply in_seq. lia.
Qed.

(** Rounding a non-negative mantissa never yields NaN. *)
Lemma shr_fexp_nonneg m e l :
  0 <= m -> 0 <= shr_m (fst (shr_fexp prec emax m e l)).
Proof.
  intros Hm. unfold shr_fexp, shr.
  destruct (fexp prec emax (Zdigits2 m + e) - e) as [|p|p]; cbn [fst].
  - by destruct l as [|[]].
  - rewrite iter_shr_1_m by (by destruct l as [|[]]).
    apply Z.div_pos; [by destruct l as [|[]]|apply Z.pow_pos_nonneg; lia].
  - by destruct l as [|[]].
Qed.

Lemma binary_round_aux_not_nan s m e l :
  0 <= m -> is_nan (binary_round_aux prec emax s m e l) = false.
Proof.
  intros Hm. unfold binary_round_aux.
  pose proof (shr_fexp_nonneg m e l Hm) as H1.
  destruct (shr_fexp prec emax m e l) as [mrs' e']. cbn [fst] in H1.
  set (m2 := round_nearest_even (shr_m mrs') (loc_of_shr_record mrs')).
  assert (H2 : 0 <= m2)
    by (destruct (round_nearest_even_cases (shr_m mrs') (loc_of_shr_record mrs'));
        unfold m2; lia).
  pose proof (shr_fexp_nonneg m2 e' loc_Exact H2) as H3.
  destruct (shr_fexp prec emax m2 e' loc_Exact) as [mrs'' e'']. cbn [fst] in H3.
  destruct (shr_m mrs'') as [|q|q]; [done| |lia].
  by destruct (e'' <=? emax - prec).
Qed.

Lemma mul_finite_not_nan x sy my ey :
  is_nan x = false -> is_nan (mul x (S754_finite sy my ey)) = false.
Proof.
  intros Hx. destruct x as [sx|sx| |sx mx ex]; try done.
  unfold mul. cbn [SFmul]. by apply binary_round_aux_not_nan.
Qed.

Lemma le_refl x : is_nan x = false -> le x x = true.
Proof.
  intros Hx. unfold le, SFleb, SFcompare.
  destruct x as [sx|sx| |sx mx ex]; try done.
  - by destruct sx.
  - rewrite Z.compare_refl, Pos.compare_cont_refl. by destruct sx.
Qed.


Lemma fexp_mono x y : x <= y -> fexp prec emax x <= fexp prec emax y.
Proof. unfold fexp, emin, prec, emax. lia. Qed.

Lemma fexp_min x : -1074 <= fexp prec emax x.
Proof. unfold fexp, emin, prec, emax. lia. Qed.

Lemma bounded_intro mx ex :
  -1074 <= ex <= 971 -> Zpos mx < 2 ^ 53 ->
  ex = -1074 \/ 2 ^ 52 <= Zpos mx ->
  bounded prec emax mx ex = true.
Proof.
  intros He Hhi Hlo. unfold bounded, canonical_mantissa.
  rewrite andb_true_iff, Z.eqb_eq, Z.leb_le. split; [|unfold emax, prec; lia].
  pose proof (digits2_le mx 53 ltac:(lia) Hhi) as Hd.
  unfold fexp, emin, prec, emax.
  destruct Hlo as [->|Hlo]; [lia|].
  pose proof (digits2_ge mx 52 ltac:(lia) Hlo). lia.
Qed.

Lemma renorm_valid s m e :
  0 <= m <= 2 ^ 53 -> -1074 <= e ->
  e = -1074 \/ 2 ^ 52 <= m ->
  valid_binary prec emax (renorm s m e) = true.
Proof.
  intros [Hlo Hhi] He Hc.
  destruct (Z.eq_dec m (2 ^ 53)) as [->|Hne].
  - rewrite renorm_carry by done.
    destruct (Z.leb_spec (e + 1) 971); [|done].
    cbn [valid_binary]. apply bounded_intro; [lia|done|by right].
  - destruct m as [|p|p]; try lia.
    + by rewrite renorm_zero.
    + rewrite renorm_small by lia.
      destruct (Z.leb_spec e 971); [|done].
      cbn [valid_binary]. apply bounded_intro; lia.
Qed.

Lemma Zdigits2_bounds m :
  0 <= m -> 0 <= Zdigits2 m /\ m < 2 ^ Zdigits2 m /\
  (0 < m -> 2 ^ (Zdigits2 m - 1) <= m).
Proof.
  intros Hm. destruct m as [|p|p]; try lia.
  - cbn [Zdigits2]. split; [done|]. split; [done|lia].
  - cbn [Zdigits2]. destruct (digits2_bounds p). split; [lia|]. split; [lia|done].
Qed.

Lemma shr_fexp_any m e l n :
  0 <= m ->
  n = fexp prec emax (Zdigits2 m + e) - e -> 0 <= n ->
  exists mrs, shr_fexp prec emax m e l = (mrs, e + n) /\ shr_m mrs = m / 2 ^ n.
Proof.
  intros Hm Hn Hpos. destruct (Z.eq_dec n 0) as [E|E].
  - rewrite shr_fexp_keep by lia. exists (shr_record_of_loc m l).
    rewrite E, Z.add_0_r. split; [done|].
    change (2 ^ 0) with 1. rewrite Z.div_1_r. by destruct l as [|[]].
  - apply shr_fexp_shift; [done|done|lia].
Qed.

(** A mantissa given with enough bits rounds to a well-formed number. *)
Lemma binary_round_aux_valid s m e l :
  0 <= m -> e <= fexp prec emax (Zdigits2 m + e) ->
  valid_binary prec emax (binary_round_aux prec emax s m e l) = true.
Proof.
  intros Hm He.
  set (n := fexp prec emax (Zdigits2 m + e) - e).
  destruct (shr_fexp_any m e l n Hm eq_refl ltac:(unfold n; lia)) as (mrs & E & Hq).
  unfold binary_round_aux. rewrite E.
  change (valid_binary prec emax
            (renorm s (round_nearest_even (shr_m mrs) (loc_of_shr_record mrs)) (e + n))
          = true).
  destruct (Zdigits2_bounds m Hm) as (Hd0 & Hdhi & Hdlo).
  set (d := Zdigits2 m) in *.
  assert (Hn0 : 0 <= n) by (unfold n; lia).
  assert (Hpn : 0 < 2 ^ n) by (apply Z.pow_pos_nonneg; lia).
  assert (Hdn : d <= 53 + n) by (unfold n, fexp, emin, prec, emax; lia).
  assert (H1 : 0 <= m / 2 ^ n < 2 ^ 53).
  { split; [apply Z.div_pos; lia|].
    apply Z.div_lt_upper_bound; [done|].
    rewrite <- Z.pow_add_r by lia.
    assert (2 ^ d <= 2 ^ (n + 53)) by (apply Z.pow_le_mono_r; lia). lia. }
  assert (H2 : e + n = -1074 \/ 2 ^ 52 <= m / 2 ^ n).
  { destruct (Z.eq_dec (e + n) (-1074)) as [|Hne]; [by left|right].
    assert (Hnd : n = d - 53) by (unfold n, fexp, emin, prec, emax in *; lia).
    assert (0 < m).
    { destruct (Z.eq_dec m 0) as [->|]; [|lia]. cbn in d. lia. }
    apply Z.div_le_lower_bound; [done|].
    rewrite <- Z.pow_add_r by lia.
    replace (n + 52) with (d - 1) by lia. by apply Hdlo. }
  rewrite Hq.
  apply renorm_valid.
  - destruct (round_nearest_even_cases (m / 2 ^ n) (loc_of_shr_record mrs)); lia.
  - unfold n. pose proof (fexp_min (d + e)). lia.
  - destruct (round_nearest_even_cases (m / 2 ^ n) (loc_of_shr_record mrs)); lia.
Qed.


Lemma digits2_iter_xO d : forall mx,
  Zpos (digits2_pos (Pos.iter xO mx d)) = Zpos (digits2_pos mx) + Zpos d.
Proof.
  induction d as [|d IH] using Pos.peano_ind; intros mx.
  - cbn [Pos.iter digits2_pos]. lia.
  - rewrite Pos.iter_succ. cbn [digits2_pos]. rewrite Pos2Z.inj_succ, IH. lia.
Qed.

Lemma binary_round_valid s mx ex :
  valid_binary prec emax (binary_round prec emax s mx ex) = true.
Proof.
  unfold binary_round, shl_align.
  set (e' := fexp prec emax (Zpos (digits2_pos mx) + ex)).
  destruct (e' - ex) as [|d|d] eqn:E;
    apply binary_round_aux_valid; try lia; cbn [Zdigits2]; fold e'; try lia.
  rewrite digits2_iter_xO.
  replace (Zpos (digits2_pos mx) + Zpos d + e') with (Zpos (digits2_pos mx) + ex) by lia.
  fold e'. lia.
Qed.

(** The quotient prepared by [SFdiv_core_binary] carries enough bits. *)
Lemma div_core_enough m1 m2 :
  0 <= fst (fst (SFdiv_core_binary prec emax (Zpos m1) 0 (Zpos m2) 0)) /\
  snd (fst (SFdiv_core_binary prec emax (Zpos m1) 0 (Zpos m2) 0)) <=
  fexp prec emax
    (Zdigits2 (fst (fst (SFdiv_core_binary prec emax (Zpos m1) 0 (Zpos m2) 0))) +
     snd (fst (SFdiv_core_binary prec emax (Zpos m1) 0 (Zpos m2) 0))).
Proof.
  unfold SFdiv_core_binary. cbn [Zdigits2].
  set (d1 := Zpos (digits2_pos m1)). set (d2 := Zpos (digits2_pos m2)).
  set (e' := Z.min (fexp prec emax (d1 + 0 - (d2 + 0))) (0 - 0)).
  set (sh := 0 - 0 - e').
  assert (He' : e' <= 0) by (unfold e'; lia).
  set (m' := match sh with Zpos _ => Z.shiftl (Zpos m1) sh | 0 => Zpos m1 | Zneg _ => 0 end).
  assert (Hm' : m' = Zpos m1 * 2 ^ sh).
  { unfold m'. destruct sh as [|p|p] eqn:E; [lia| |lia].
    by rewrite Z.shiftl_mul_pow2. }
  assert (Hq : fst (Z.div_eucl m' (Zpos m2)) = m' / Zpos m2) by reflexivity.
  destruct (Z.div_eucl m' (Zpos m2)) as [q r]. cbn [fst snd] in *. subst q.
  assert (Hps : 0 < 2 ^ sh) by (apply Z.pow_pos_nonneg; lia).
  split; [apply Z.div_pos; nia|].
  destruct (Z.eq_dec e' (-1074)) as [->|Hne]; [apply fexp_min|].
  destruct (digits2_bounds m1) as [H1lo H1hi]. fold d1 in H1lo, H1hi.
  destruct (digits2_bounds m2) as [H2lo H2hi]. fold d2 in H2lo, H2hi.
  assert (Hf : fexp prec emax (d1 + 0 - (d2 + 0)) = d1 - d2 - 53 /\ e' <= d1 - d2 - 53).
  { unfold e', fexp, emin, prec, emax in *. lia. }
  destruct Hf as [Hf Hle].
  set (k := d1 - d2 - 1 - e').
  assert (Hk : 52 <= k) by (unfold k; lia).
  assert (Hqk : 2 ^ k <= m' / Zpos m2).
  { apply Z.div_le_lower_bound; [lia|].
    assert (2 ^ k * 2 ^ d2 = 2 ^ (d1 - 1) * 2 ^ sh).
    { rewrite <- !Z.pow_add_r by lia. f_equal. unfold k, sh. lia. }
    assert (0 < 2 ^ k) by (apply Z.pow_pos_nonneg; lia).
    nia. }
  assert (0 < 2 ^ k) by (apply Z.pow_pos_nonneg; lia).
  destruct (m' / Zpos m2) as [|q|q] eqn:Eq; try lia.
  cbn [Zdigits2].
  pose proof (digits2_ge q k ltac:(lia) Hqk).
  etrans; [|apply (fexp_mono (d1 + 0 - (d2 + 0)))]; [unfold e'; lia|unfold k in *; lia].
Qed.

Lemma of_decimal_valid neg m e : valid_binary prec emax (of_decimal neg m e) = true.
Proof.
  unfold of_decimal. destruct m as [|p|p]; try done.
  destruct e as [|k|k]; try apply binary_round_valid.
  assert (Hten : exists t, 10 ^ Zpos k = Zpos t).
  { assert (0 < 10 ^ Zpos k) by (apply Z.pow_pos_nonneg; lia).
    destruct (10 ^ Zpos k) as [|t|t]; try lia. by exists t. }
  destruct Hten as [t ->].
  destruct (div_core_enough p t) as [H0 H1].
  destruct (SFdiv_core_binary prec emax (Zpos p) 0 (Zpos t) 0) as [[q e'] l].
  cbn [fst snd] in *. by apply binary_round_aux_valid.
Qed.

Lemma read_unsigned_valid neg s : valid_binary prec emax (read_unsigned neg s) = true.
Proof.
  unfold read_unsigned. destruct (String.prefix "Infinity" s); [done|].
  destruct (read_digits s 0 0) as [[ip ni] r].
  destruct (match r with
            | String "."%char t => read_digits t ip 0
            | _ => (ip, 0, r)
            end) as [[m nf] r'].
  destruct (ni + nf =? 0); [done|apply of_decimal_valid].
Qed.

(** [parseFloat] only returns numbers the hardware can hold. *)
Lemma parseFloat_well_formed s : well_formed (parseFloat s) = true.
Proof.
  unfold well_formed, parseFloat.
  destruct (trim_start s) as [|c r]; [apply read_unsigned_valid|].
  destruct c as [[] [] [] [] [] [] [] []]; apply read_unsigned_valid.
Qed.

End Rounding.

(** ** Prices and their two projections *)

Section Prices.

Import JS GoodsManagement.

(** From [17 * 2^-1074] up to the largest finite number, a price lies
    strictly between its two projections. *)
Lemma price_brackets p :
  well_formed p = true ->
  le smallestMoving p = true -> lt p infinity = true ->
  gt (mul p lit_1_03) p = true /\ gt p (mul p lit_0_97) = true.
Proof.
  intros Hwf Hmin Hfin.
  destruct p as [s|s| |s mx ex]; try done.
  - by destruct s.
  - destruct s; [done|].
    assert (Hc : 17 <= Zpos mx \/ -1074 < ex).
    { unfold le, smallestMoving, SFleb, SFcompare in Hmin.
      destruct (Z.compare_spec (-1074) ex) as [<-|Hlt|Hgt]; [|lia|done].
      change (Pos.compare_cont Eq 17 mx) with (Pos.compare 17 mx) in Hmin.
      destruct (Pos.compare_spec 17 mx); [lia|lia|done]. }
    unfold gt. split; [by apply mul_1_03_above|by apply mul_0_97_below].
Qed.

(** Below that, and at [Infinity], neither strict inequality holds. *)
Lemma price_stuck p :
  well_formed p = true -> gt p zero = true ->
  le smallestMoving p = false \/ lt p infinity = false ->
  gt (mul p lit_1_03) p = false /\ gt p (mul p lit_0_97) = false.
Proof.
  intros Hwf Hpos Hout.
  destruct p as [s|s| |s mx ex]; try done.
  - by destruct s.
  - destruct s; [done|].
    destruct Hout as [Hmin|Hfin]; [|done].
    destruct (bounded_inv mx ex Hwf) as (He & Hhi & Hlo).
    assert (Hc : ex = -1074 /\ Zpos mx < 17).
    { unfold le, smallestMoving, SFleb, SFcompare in Hmin.
      destruct (Z.compare_spec (-1074) ex) as [<-|Hlt|Hgt]; [|done|lia].
      change (Pos.compare_cont Eq 17 mx) with (Pos.compare 17 mx) in Hmin.
      destruct (Pos.compare_spec 17 mx); [done|done|lia]. }
    destruct Hc as [-> Hm].
    pose proof (check_stuck_range mx Hm) as Hc. unfold check_stuck in Hc.
    apply andb_true_iff in Hc as [H1 H2].
    apply negb_true_iff in H1, H2. by split.
Qed.

(** Every parsed price is in one case or the other. *)
Lemma parsed_price_stuck fd :
  gt (parsedPrice fd) zero = true ->
  le smallestMoving (parsedPrice fd) = false \/ lt (parsedPrice fd) infinity = false ->
  gt (mul (parsedPrice fd) lit_1_03) (parsedPrice fd) = false /\
  gt (parsedPrice fd) (mul (parsedPrice fd) lit_0_97) = false.
Proof. apply price_stuck, parseFloat_well_formed. Qed.

End Prices.

(** ** Prices typed into a field of type number *)

Section NumberField.

Import JS GoodsManagement GoodsView.

Lemma digit_of_range c d : digit_of c = Some d -> 0 <= d <= 9.
Proof.
  unfold digit_of.
  destruct (_ && _) eqn:H; [|done].
  intros [= <-]. apply andb_true_iff in H as [H1 H2]. lia.
Qed.

Lemma read_digits_grows s : forall acc cnt m n r,
  0 <= acc -> read_digits s acc cnt = (m, n, r) -> 0 <= m /\ cnt <= n.
Proof.
  induction s as [|c s IH]; intros acc cnt m n r Hacc H; cbn [read_digits] in H.
  - injection H as <- <- <-. lia.
  - destruct (digit_of c) as [d|] eqn:Hd.
    + pose proof (digit_of_range c d Hd).
      apply IH in H; lia.
    + injection H as <- <- <-. lia.
Qed.

Lemma read_digits_head c s acc cnt m n r :
  is_digit c = true -> 0 <= acc ->
  read_digits (String c s) acc cnt = (m, n, r) -> 0 <= m /\ cnt + 1 <= n.
Proof.
  unfold is_digit. intros Hc Hacc H. cbn [read_digits] in H.
  destruct (digit_of c) as [d|] eqn:Hd; [|done].
  pose proof (digit_of_range c d Hd).
  apply read_digits_grows in H; lia.
Qed.

Lemma of_decimal_not_nan neg m e : 0 <= m -> is_nan (of_decimal neg m e) = false.
Proof.
  intros Hm. unfold of_decimal. destruct m as [|p|p]; [done| |lia].
  destruct e as [|k|k].
  - unfold binary_round. destruct (shl_align _ _ _) as [mz ez].
    by apply binary_round_aux_not_nan.
  - unfold binary_round. destruct (shl_align _ _ _) as [mz ez].
    by apply binary_round_aux_not_nan.
  - assert (Hten : exists t, 10 ^ Zpos k = Zpos t).
    { assert (0 < 10 ^ Zpos k) by (apply Z.pow_pos_nonneg; lia).
      destruct (10 ^ Zpos k) as [|t|t]; try lia. by exists t. }
    destruct Hten as [t ->].
    destruct (div_core_enough p t) as [H0 H1].
    destruct (SFdiv_core_binary prec emax (Zpos p) 0 (Zpos t) 0) as [[q e'] l].
    cbn [fst snd] in *. apply binary_round_aux_not_nan. lia.
Qed.

(** The fraction of a literal is read only after a point. *)
Lemma fraction_cases ip r :
  match r with
  | String "."%char t => read_digits t ip 0
  | _ => (ip, 0, r)
  end = (ip, 0, r) \/
  exists t, r = String "." t.
Proof.
  destruct r as [|c t]; [by left|].
  destruct c as [[] [] [] [] [] [] [] []];
    first [by left | right; by exists t].
Qed.

Lemma read_unsigned_not_nan neg s :
  unsignedHead s = true -> is_nan (read_unsigned neg s) = false.
Proof.
  intros Hs. unfold read_unsigned.
  destruct (String.prefix "Infinity" s); [done|].
  destruct (read_digits s 0 0) as [[ip ni] r] eqn:Hint.
  assert (Hm : 0 <= ip /\ 0 <= ni) by (apply read_digits_grows in Hint; lia).
  assert (Hfrac : forall m nf r',
    match r with
    | String "."%char t => read_digits t ip 0
    | _ => (ip, 0, r)
    end = (m, nf, r') -> 0 <= m /\ 1 <= ni + nf).
  { intros m nf r' H.
    destruct s as [|c s']; [done|]. cbn [unsignedHead] in Hs.
    destruct (is_digit c) eqn:Hc.
    - apply read_digits_head in Hint; [|done|lia].
      destruct (fraction_cases ip r) as [E|(t & ->)].
      + pose proof (eq_trans (eq_sym E) H) as H'. injection H' as <- <- <-. lia.
      + change (read_digits t ip 0 = (m, nf, r')) in H.
        apply read_digits_grows in H; lia.
    - cbn [orb] in Hs. apply andb_true_iff in Hs as [Hdot Hd].
      apply Ascii.eqb_eq in Hdot as ->.
      cbn in Hint. injection Hint as <- <- <-.
      destruct s' as [|d s'']; [done|].
      eapply read_digits_head in H; [lia|done|lia]. }
  destruct (match r with
            | String "."%char t => read_digits t ip 0
            | _ => (ip, 0, r)
            end) as [[m nf] r'] eqn:E.
  destruct (Hfrac m nf r' eq_refl) as [H1 H2].
  destruct (Z.eqb_spec (ni + nf) 0); [lia|].
  by apply of_decimal_not_nan.
Qed.

(** [parseFloat] of a text that begins like a number is a number. *)
Lemma number_head_not_nan s : numberHead s = true -> is_nan (parseFloat s) = false.
Proof.
  intros Hs. destruct s as [|c r]; [done|]. unfold parseFloat.
  destruct c as [[] [] [] [] [] [] [] []];
    cbn in Hs; try discriminate Hs;
    cbn [trim_start is_white];
    apply read_unsigned_not_nan; cbn; exact Hs.
Qed.

(** Whatever the price field delivers and validation lets through parses
    to a number. *)
Lemma number_field_price (fd : gmap string string) text :
  fd !! "price" = Some text -> numberHead text = true ->
  is_nan (parsedPrice fd) = false.
Proof.
  intros Hp Hn. unfold parsedPrice. rewrite Hp. by apply number_head_not_nan.
Qed.

Example number_field_prices :
  forallb numberHead ["10"; "-3.5"; ".5"; "0.0001"; "1e3"; "12.5E-2"; "-.25"] = true /\
  numberHead "" = false /\ numberHead "abc" = false.
Proof. by vm_compute. Qed.

End NumberField.

(** ** Validation and the two outcomes of [handleSubmit] *)

Section Submit.

Import JS GoodsManagement.

Lemma filled_falsy (fd : gmap string string) k :
  filled fd k = negb (falsy (fd !! k)).
Proof. unfold filled. by destruct (fd !! k) as [[|c v]|]. Qed.

(** The validation [if] fires exactly when some field is not filled. *)
Lemma someFieldMissing_allFilled (fd : gmap string string) :
  someFieldMissing fd = negb (allFilled fd).
Proof.
  unfold someFieldMissing, allFilled, requiredFields. cbn [forallb].
  rewrite !filled_falsy.
  repeat match goal with |- context [falsy ?o] => destruct (falsy o) end;
    reflexivity.
Qed.

Lemma allFilled_spec (fd : gmap string string) :
  allFilled fd = true <->
  forall k, In k requiredFields -> exists v, fd !! k = Some v /\ v <> "".
Proof.
  unfold allFilled. rewrite forallb_forall. split; intros H k Hk.
  - specialize (H k Hk). unfold filled in H.
    destruct (fd !! k) as [[|c v]|]; try done. by eexists.
  - destruct (H k Hk) as (v & Hv & Hne). unfold filled. rewrite Hv.
    by destruct v.
Qed.

Lemma empty_not_allFilled (fd : gmap string string) k :
  In k requiredFields -> fd !! k = Some "" -> allFilled fd = false.
Proof.
  intros Hk Hv. destruct (allFilled fd) eqn:E; [|done].
  destruct (proj1 (allFilled_spec fd) E k Hk) as (v & Hv' & Hne). congruence.
Qed.

Lemma handleSubmit_rejected now r s :
  allFilled (formData s) = false ->
  handleSubmit now r s =
  {| goods := goods s; loading := false; error := "Please fill in all fields";
     exchangeRate := exchangeRate s; formData := formData s;
     console := console s |}.
Proof.
  intros H. unfold handleSubmit. rewrite someFieldMissing_allFilled, H.
  reflexivity.
Qed.

Lemma handleSubmit_accepted now r s :
  allFilled (formData s) = true ->
  handleSubmit now r s =
  {| goods := goods s ++ [newGoods (formData s) now r]; loading := false;
     error := ""; exchangeRate := exchangeRate s; formData := emptyForm;
     console := console s |}.
Proof.
  intros H. unfold handleSubmit. rewrite someFieldMissing_allFilled, H.
  reflexivity.
Qed.

(** The catalog only ever grows at its end. *)
Lemma step_goods_prefix s ev : goods s `prefix_of` goods (step s ev).
Proof.
  destruct ev as [o|name value|now r]; simpl.
  - unfold fetchExchangeRate. by destruct (response_rates o).
  - done.
  - unfold handleSubmit. destruct (someFieldMissing (formData s)); simpl.
    + done.
    + by apply prefix_app_r.
Qed.

Lemma run_goods_prefix evs : forall s, goods s `prefix_of` goods (run s evs).
Proof.
  induction evs as [|ev evs IH]; intros s; simpl.
  - done.
  - etrans; [apply (step_goods_prefix s ev)|apply IH].
Qed.

(** Both prediction objects hold one entry per horizon. *)
Lemma predictions_lookup fd h :
  In h horizons ->
  up (makePredictions fd) !! h = Some (mul (parsedPrice fd) lit_1_03) /\
  down (makePredictions fd) !! h = Some (mul (parsedPrice fd) lit_0_97).
Proof.
  intros Hh. simpl in Hh. destruct Hh as [<-|[<-|[<-|[]]]]; by split.
Qed.

End Submit.

(** ** Sample runs *)

Section Runs.

Import JS GoodsManagement Samples.

Example parseFloat_samples :
  parseFloat "10" = of_decimal false 10 0 /\
  parseFloat "  -5.25e1kg" = of_decimal true 525 (-1) /\
  parseFloat ".5" = of_decimal false 5 (-1) /\
  parseFloat "5.e1" = of_decimal false 50 0 /\
  parseFloat "1e" = of_decimal false 1 0 /\
  parseFloat "-0" = S754_zero true /\
  parseFloat "-Infinity" = S754_infinity true /\
  parseFloat "abc" = S754_nan /\
  parseFloat "" = S754_nan.
Proof. repeat split; vm_compute; reflexivity. Qed.

(** The widget of price ["10"]: one record, of current price 10, whose
    30-day [up] projection is above 10. *)
Example widget_run :
  exists g v,
    goods (run initial (filling "5" "10" ++ [Submit 0 highDraws])) = [g] /\
    currentPrice g = of_decimal false 10 0 /\
    up (predictions g) !! 30 = Some v /\
    gt v (of_decimal false 10 0) = true.
Proof.
  exists (newGoods (formData (typed "5" "10")) 0 highDraws),
    (mul (of_decimal false 10 0) lit_1_03).
  repeat split; vm_compute; reflexivity.
Qed.

End Runs.

(** ** The catalog store *)

Section Catalog.

Import JS GoodsManagement Samples.

(** C5: a submission whose seven fields are all non-empty appends exactly
    one record at the end of the catalog: the length grows by one, every
    record stored before keeps its position and value, the new record's
    [currentPrice] is [parseFloat] of the submitted price, and whatever
    events follow, no stored record is ever changed or removed. *)
Theorem add_appends_one_record s now r :
  allFilled (formData s) = true ->
  exists g price,
    goods (handleSubmit now r s) = goods s ++ [g] /\
    length (goods (handleSubmit now r s)) = S (length (goods s)) /\
    (forall i x, goods s !! i = Some x ->
                 goods (handleSubmit now r s) !! i = Some x) /\
    formData s !! "price" = Some price /\
    currentPrice g = parseFloat price /\
    (forall evs i x,
       goods (handleSubmit now r s) !! i = Some x ->
       goods (run (handleSubmit now r s) evs) !! i = Some x).
Proof.
  intros Hall.
  destruct (proj1 (allFilled_spec _) Hall "price") as (price & Hprice & _);
    [simpl; tauto|].
  exists (newGoods (formData s) now r), price.
  rewrite (handleSubmit_accepted now r s Hall). cbn [goods].
  split; [done|]. split; [rewrite length_app; simpl; lia|].
  split; [intros i x Hi; by apply lookup_app_l_Some|].
  split; [done|]. split.
  - cbn [newGoods currentPrice]. unfold parsedPrice. by rewrite Hprice.
  - intros evs i x Hi.
    eapply prefix_lookup_Some; [exact Hi|].
    apply (run_goods_prefix evs
             {| goods := goods s ++ [newGoods (formData s) now r];
                loading := false; error := ""; exchangeRate := exchangeRate s;
                formData := emptyForm; console := console s |}).
Qed.

Lemma add_appends_one_record_witness :
  allFilled (formData (typed "5" "10")) = true /\
  exists g price,
    goods (handleSubmit 0 highDraws (typed "5" "10")) =
      goods (typed "5" "10") ++ [g] /\
    length (goods (handleSubmit 0 highDraws (typed "5" "10"))) =
      S (length (goods (typed "5" "10"))) /\
    (forall i x, goods (typed "5" "10") !! i = Some x ->
                 goods (handleSubmit 0 highDraws (typed "5" "10")) !! i = Some x) /\
    formData (typed "5" "10") !! "price" = Some price /\
    currentPrice g = parseFloat price /\
    (forall evs i x,
       goods (handleSubmit 0 highDraws (typed "5" "10")) !! i = Some x ->
       goods (run (handleSubmit 0 highDraws (typed "5" "10")) evs) !! i = Some x).
Proof.
  split; [reflexivity|].
  apply (add_appends_one_record (typed "5" "10") 0 highDraws). reflexivity.
Defined.

(** C6: a submission in which one of the seven fields is empty is
    refused: the single message "Please fill in all fields" is shown, the
    catalog (hence its length) is unchanged and the loading flag is
    cleared. *)
Theorem empty_field_rejected s now r k :
  In k requiredFields -> formData s !! k = Some "" ->
  error (handleSubmit now r s) = "Please fill in all fields" /\
  goods (handleSubmit now r s) = goods s /\
  length (goods (handleSubmit now r s)) = length (goods s) /\
  loading (handleSubmit now r s) = false.
Proof.
  intros Hk Hv.
  rewrite (handleSubmit_rejected now r s (empty_not_allFilled _ k Hk Hv)).
  done.
Qed.

Lemma empty_field_rejected_witness :
  In "cost" requiredFields /\ formData (typed "" "10") !! "cost" = Some "" /\
  error (handleSubmit 0 highDraws (typed "" "10")) = "Please fill in all fields" /\
  goods (handleSubmit 0 highDraws (typed "" "10")) = goods (typed "" "10") /\
  length (goods (handleSubmit 0 highDraws (typed "" "10"))) =
    length (goods (typed "" "10")) /\
  loading (handleSubmit 0 highDraws (typed "" "10")) = false.
Proof.
  split; [simpl; tauto|]. split; [reflexivity|].
  apply (empty_field_rejected (typed "" "10") 0 highDraws "cost");
    [simpl; tauto|reflexivity].
Defined.

(** C10: after an accepted submission each of the seven form fields holds
    the empty string (the form is the initial one); after a refused one the
    form keeps the submitted values, and the state differs from the one
    before only in the error message and the loading flag. *)
Theorem form_reset_or_kept s now r :
  (allFilled (formData s) = true ->
   formData (handleSubmit now r s) = emptyForm /\
   forall k, In k requiredFields -> formData (handleSubmit now r s) !! k = Some "") /\
  (allFilled (formData s) = false ->
   formData (handleSubmit now r s) = formData s /\
   handleSubmit now r s =
     setLoading false (setError "Please fill in all fields" s)).
Proof.
  split; intros H.
  - rewrite (handleSubmit_accepted now r s H). cbn [formData]. split; [done|].
    intros k Hk. simpl in Hk.
    destruct Hk as [<-|[<-|[<-|[<-|[<-|[<-|[<-|[]]]]]]]]; reflexivity.
  - rewrite (handleSubmit_rejected now r s H). done.
Qed.

Lemma form_reset_or_kept_witness :
  (allFilled (formData (typed "5" "10")) = true /\
   formData (handleSubmit 0 highDraws (typed "5" "10")) = emptyForm) /\
  (allFilled (formData (typed "" "10")) = false /\
   formData (handleSubmit 0 highDraws (typed "" "10")) = formData (typed "" "10")).
Proof.
  split.
  - split; [reflexivity|].
    apply (proj1 (form_reset_or_kept (typed "5" "10") 0 highDraws)). reflexivity.
  - split; [reflexivity|].
    apply (proj2 (form_reset_or_kept (typed "" "10") 0 highDraws)). reflexivity.
Defined.

End Catalog.

(** ** Exchange rates *)

Section ExchangeRate.

Import JS GoodsManagement Samples.

(** Every rejection of [axios.get] throws inside the [try]. *)
Lemma rejection_throws reason :
  response_rates (Rejected reason) = inl (AxiosError reason).
Proof. reflexivity. Qed.

(** A response whose body has no [rates] does not throw: the rate table
    becomes [undefined]. *)
Lemma fetch_without_rates s :
  exchangeRate (fetchExchangeRate (Resolved (Body None)) s) = None.
Proof. reflexivity. Qed.

(** X23: whenever the [try] block throws, that is when the request
    rejects (no response, or a status outside 2xx) or the response body is
    [null], the rate table becomes exactly
    [{USD: 1, EUR: 0.85, GBP: 0.73, NGN: 460}]; the error message shown to
    the user, the catalog, the loading flag and the form are untouched,
    and the console receives one line: the label and the error caught. *)
Theorem fetch_failure_falls_back s o t :
  response_rates o = inl t ->
  exchangeRate (fetchExchangeRate o s) =
    Some {[ "USD" := of_decimal false 1 0; "EUR" := of_decimal false 85 (-2);
            "GBP" := of_decimal false 73 (-2); "NGN" := of_decimal false 460 0 ]} /\
  error (fetchExchangeRate o s) = error s /\
  goods (fetchExchangeRate o s) = goods s /\
  loading (fetchExchangeRate o s) = loading s /\
  formData (fetchExchangeRate o s) = formData s /\
  console (fetchExchangeRate o s) =
    console s ++ [("Error fetching exchange rate:", t)].
Proof.
  intros Ht. unfold fetchExchangeRate. rewrite Ht. done.
Qed.

Lemma fetch_failure_falls_back_witness :
  response_rates (Rejected NetworkError) = inl (AxiosError NetworkError) /\
  exchangeRate (fetchExchangeRate (Rejected NetworkError) initial) =
    Some {[ "USD" := of_decimal false 1 0; "EUR" := of_decimal false 85 (-2);
            "GBP" := of_decimal false 73 (-2); "NGN" := of_decimal false 460 0 ]} /\
  error (fetchExchangeRate (Rejected NetworkError) initial) = error initial /\
  goods (fetchExchangeRate (Rejected NetworkError) initial) = goods initial /\
  loading (fetchExchangeRate (Rejected NetworkError) initial) = loading initial /\
  formData (fetchExchangeRate (Rejected NetworkError) initial) = formData initial /\
  console (fetchExchangeRate (Rejected NetworkError) initial) =
    console initial ++ [("Error fetching exchange rate:", AxiosError NetworkError)].
Proof.
  split; [reflexivity|].
  apply (fetch_failure_falls_back initial (Rejected NetworkError)
           (AxiosError NetworkError)).
  reflexivity.
Defined.

(** C8, where the code departs from it: a response whose body fails to
    parse as JSON does not make the [try] block throw.  The body arrives as
    text, [response.data.rates] is [undefined], and that is what the rate
    table becomes: not the fallback table, and nothing is logged. *)
Theorem unparsed_body_gets_no_fallback s text :
  exchangeRate (fetchExchangeRate (Resolved (RawText text)) s) = None /\
  exchangeRate (fetchExchangeRate (Resolved (RawText text)) s) <>
    Some {[ "USD" := of_decimal false 1 0; "EUR" := of_decimal false 85 (-2);
            "GBP" := of_decimal false 73 (-2); "NGN" := of_decimal false 460 0 ]} /\
  console (fetchExchangeRate (Resolved (RawText text)) s) = console s /\
  error (fetchExchangeRate (Resolved (RawText text)) s) = error s.
Proof. repeat split. discriminate. Qed.

End ExchangeRate.

(** ** Supplier labels *)

Section Supplier.

Import JS GoodsManagement Samples.

(** C9: with the three random draws made explicit, the supplier labels of
    the record a submission adds are a function of the draws alone: two
    accepted submissions made with the same draws get the same labels
    whatever their forms and times; each label is one of its two values;
    and there are draws on which the labels differ. *)
Theorem supplier_labels_ignore_submission s1 s2 now1 now2 r :
  allFilled (formData s1) = true -> allFilled (formData s2) = true ->
  exists g1 g2,
    goods (handleSubmit now1 r s1) = goods s1 ++ [g1] /\
    goods (handleSubmit now2 r s2) = goods s2 ++ [g2] /\
    supplierPerformance g1 = supplierPerformance g2 /\
    (onTimeDelivery (supplierPerformance g1) = "Good" \/
     onTimeDelivery (supplierPerformance g1) = "Poor") /\
    (qualityScore (supplierPerformance g1) = "High" \/
     qualityScore (supplierPerformance g1) = "Low") /\
    (riskLevel (supplierPerformance g1) = "Low" \/
     riskLevel (supplierPerformance g1) = "High") /\
    exists ra rb ga gb,
      goods (handleSubmit now1 ra s1) = goods s1 ++ [ga] /\
      goods (handleSubmit now1 rb s1) = goods s1 ++ [gb] /\
      supplierPerformance ga <> supplierPerformance gb.
Proof.
  intros H1 H2.
  exists (newGoods (formData s1) now1 r), (newGoods (formData s2) now2 r).
  rewrite (handleSubmit_accepted now1 r s1 H1), (handleSubmit_accepted now2 r s2 H2).
  cbn [goods newGoods supplierPerformance makeSupplierPerformance
       onTimeDelivery qualityScore riskLevel].
  split; [done|]. split; [done|]. split; [done|].
  split; [destruct (gt (draw1 r) lit_0_3); auto|].
  split; [destruct (gt (draw2 r) lit_0_2); auto|].
  split; [destruct (gt (draw3 r) lit_0_4); auto|].
  exists highDraws, lowDraws,
    (newGoods (formData s1) now1 highDraws), (newGoods (formData s1) now1 lowDraws).
  rewrite (handleSubmit_accepted now1 highDraws s1 H1),
    (handleSubmit_accepted now1 lowDraws s1 H1).
  split; [done|]. split; [done|]. discriminate.
Qed.

Lemma supplier_labels_ignore_submission_witness :
  allFilled (formData (typed "5" "10")) = true /\
  allFilled (formData (typed "7" "2.5")) = true /\
  exists g1 g2,
    goods (handleSubmit 1 lowDraws (typed "5" "10")) = goods (typed "5" "10") ++ [g1] /\
    goods (handleSubmit 2 lowDraws (typed "7" "2.5")) = goods (typed "7" "2.5") ++ [g2] /\
    supplierPerformance g1 = supplierPerformance g2.
Proof.
  split; [reflexivity|]. split; [reflexivity|].
  destruct (supplier_labels_ignore_submission
              (typed "5" "10") (typed "7" "2.5") 1 2 lowDraws eq_refl eq_refl)
    as (g1 & g2 & E1 & E2 & E & _).
  exists g1, g2. auto.
Defined.

End Supplier.

(** ** Price projections *)

Section Projections.

Import JS GoodsManagement Samples.

(** C2: in the record an accepted submission adds, every horizon of the
    [up] scenario holds the same value, the parsed price times 1.03, and
    every horizon of the [down] scenario the parsed price times 0.97; the
    day offset plays no part. *)
Theorem horizons_share_one_value s now r h :
  allFilled (formData s) = true -> In h horizons ->
  exists g price,
    goods (handleSubmit now r s) = goods s ++ [g] /\
    formData s !! "price" = Some price /\
    up (predictions g) !! h = Some (mul (parseFloat price) lit_1_03) /\
    down (predictions g) !! h = Some (mul (parseFloat price) lit_0_97) /\
    lit_1_03 = of_decimal false 103 (-2) /\
    lit_0_97 = of_decimal false 97 (-2) /\
    forall h', In h' horizons ->
      up (predictions g) !! h' = up (predictions g) !! h /\
      down (predictions g) !! h' = down (predictions g) !! h.
Proof.
  intros Hall Hh.
  destruct (proj1 (allFilled_spec _) Hall "price") as (price & Hprice & _);
    [simpl; tauto|].
  exists (newGoods (formData s) now r), price.
  rewrite (handleSubmit_accepted now r s Hall).
  cbn [goods newGoods predictions].
  destruct (predictions_lookup (formData s) h Hh) as [Hu Hd].
  assert (Hp : parsedPrice (formData s) = parseFloat price)
    by (unfold parsedPrice; by rewrite Hprice).
  rewrite Hp in Hu, Hd.
  repeat (split; [done|]).
  intros h' Hh'. destruct (predictions_lookup (formData s) h' Hh') as [Hu' Hd'].
  rewrite Hp in Hu', Hd'. by rewrite Hu, Hd, Hu', Hd'.
Qed.

Lemma horizons_share_one_value_witness :
  allFilled (formData (typed "5" "10")) = true /\ In 50 horizons /\
  exists g price,
    goods (handleSubmit 0 highDraws (typed "5" "10")) = goods (typed "5" "10") ++ [g] /\
    formData (typed "5" "10") !! "price" = Some price /\
    up (predictions g) !! 50 = Some (mul (parseFloat price) lit_1_03) /\
    down (predictions g) !! 50 = Some (mul (parseFloat price) lit_0_97).
Proof.
  split; [reflexivity|]. split; [simpl; tauto|].
  destruct (horizons_share_one_value (typed "5" "10") 0 highDraws 50 eq_refl)
    as (g & price & E & Hp & Hu & Hd & _); [simpl; tauto|].
  exists g, price. auto.
Defined.

(** C1, as the code has it: for every finite price from [17 * 2^-1074]
    upwards (so for every positive normal binary64 price) and every
    horizon, the [up] projection is strictly above the price and the
    [down] projection strictly below it. *)
Theorem projection_brackets_price s now r h :
  allFilled (formData s) = true -> In h horizons ->
  le smallestMoving (parsedPrice (formData s)) = true ->
  lt (parsedPrice (formData s)) infinity = true ->
  exists g v w,
    goods (handleSubmit now r s) = goods s ++ [g] /\
    currentPrice g = parsedPrice (formData s) /\
    up (predictions g) !! h = Some v /\
    down (predictions g) !! h = Some w /\
    gt v (currentPrice g) = true /\
    gt (currentPrice g) w = true.
Proof.
  intros Hall Hh Hmin Hfin.
  pose proof (parseFloat_well_formed (default "undefined" (formData s !! "price")))
    as Hwf.
  fold (parsedPrice (formData s)) in Hwf.
  exists (newGoods (formData s) now r),
    (mul (parsedPrice (formData s)) lit_1_03),
    (mul (parsedPrice (formData s)) lit_0_97).
  rewrite (handleSubmit_accepted now r s Hall).
  cbn [goods newGoods predictions currentPrice].
  destruct (predictions_lookup (formData s) h Hh) as [Hu Hd].
  destruct (price_brackets _ Hwf Hmin Hfin) as [Hup Hdown].
  done.
Qed.

Lemma projection_brackets_price_witness :
  allFilled (formData (typed "5" "10")) = true /\ In 30 horizons /\
  le smallestMoving (parsedPrice (formData (typed "5" "10"))) = true /\
  lt (parsedPrice (formData (typed "5" "10"))) infinity = true /\
  exists g v w,
    goods (handleSubmit 0 highDraws (typed "5" "10")) = goods (typed "5" "10") ++ [g] /\
    currentPrice g = parsedPrice (formData (typed "5" "10")) /\
    up (predictions g) !! 30 = Some v /\
    down (predictions g) !! 30 = Some w /\
    gt v (currentPrice g) = true /\
    gt (currentPrice g) w = true.
Proof.
  split; [reflexivity|]. split; [simpl; tauto|].
  split; [reflexivity|]. split; [reflexivity|].
  apply (projection_brackets_price (typed "5" "10") 0 highDraws 30);
    [reflexivity|simpl; tauto|reflexivity|reflexivity].
Defined.

(** C1 fails as stated: the price ["5e-324"] parses to the positive
    number [2^-1074], and both projections at 30 days equal the price, so
    neither is strictly on its side of it. *)
Lemma smallest_price_not_bracketed :
  exists g,
    goods (handleSubmit 0 highDraws (typed "5" "5e-324")) = [g] /\
    gt (currentPrice g) zero = true /\
    up (predictions g) !! 30 = Some (currentPrice g) /\
    down (predictions g) !! 30 = Some (currentPrice g) /\
    ~ (exists v w,
         up (predictions g) !! 30 = Some v /\
         down (predictions g) !! 30 = Some w /\
         gt v (currentPrice g) = true /\ gt (currentPrice g) w = true).
Proof.
  exists (newGoods (formData (typed "5" "5e-324")) 0 highDraws).
  split; [vm_compute; reflexivity|]. split; [vm_compute; reflexivity|].
  split; [vm_compute; reflexivity|]. split; [vm_compute; reflexivity|].
  intros (v & w & Hu & _ & Hv & _).
  vm_compute in Hu. injection Hu as <-. vm_compute in Hv. discriminate.
Qed.

(** C3: for every price that is a number and every pair of horizons
    [h1 < h2], the [up] projection at [h1] is at most the one at [h2]; the
    two are the same number.  Every price that the field of type number
    delivers is such a number ([number_field_price]). *)
Theorem up_projection_monotone s now r h1 h2 :
  allFilled (formData s) = true ->
  In h1 horizons -> In h2 horizons -> h1 < h2 ->
  is_nan (parsedPrice (formData s)) = false ->
  exists g v1 v2,
    goods (handleSubmit now r s) = goods s ++ [g] /\
    up (predictions g) !! h1 = Some v1 /\
    up (predictions g) !! h2 = Some v2 /\
    le v1 v2 = true.
Proof.
  intros Hall Hh1 Hh2 Hlt Hnan.
  exists (newGoods (formData s) now r),
    (mul (parsedPrice (formData s)) lit_1_03),
    (mul (parsedPrice (formData s)) lit_1_03).
  rewrite (handleSubmit_accepted now r s Hall).
  cbn [goods newGoods predictions].
  destruct (predictions_lookup (formData s) h1 Hh1) as [Hu1 _].
  destruct (predictions_lookup (formData s) h2 Hh2) as [Hu2 _].
  repeat (split; [done|]).
  apply le_refl. by apply mul_finite_not_nan.
Qed.

Lemma up_projection_monotone_witness :
  allFilled (formData (typed "5" "10")) = true /\
  In 30 horizons /\ In 60 horizons /\ 30 < 60 /\
  is_nan (parsedPrice (formData (typed "5" "10"))) = false /\
  exists g v1 v2,
    goods (handleSubmit 0 highDraws (typed "5" "10")) = goods (typed "5" "10") ++ [g] /\
    up (predictions g) !! 30 = Some v1 /\
    up (predictions g) !! 60 = Some v2 /\
    le v1 v2 = true.
Proof.
  split; [reflexivity|]. split; [simpl; tauto|]. split; [simpl; tauto|].
  split; [lia|]. split; [reflexivity|].
  apply (up_projection_monotone (typed "5" "10") 0 highDraws 30 60);
    [reflexivity|simpl; tauto|simpl; tauto|lia|reflexivity].
Defined.

(** The hypothesis on the price is not idle for [handleSubmit] taken on
    its own: form data whose price text has no numeric prefix passes
    validation and parses to NaN, whose projections do not compare.  The
    field of type number never delivers such a text. *)
Lemma nan_price_not_monotone :
  exists g,
    goods (handleSubmit 0 highDraws (typed "5" "abc")) = [g] /\
    up (predictions g) !! 30 = Some S754_nan /\
    up (predictions g) !! 50 = Some S754_nan /\
    ~ (exists v1 v2,
         up (predictions g) !! 30 = Some v1 /\
         up (predictions g) !! 50 = Some v2 /\
         le v1 v2 = true).
Proof.
  exists (newGoods (formData (typed "5" "abc")) 0 highDraws).
  split; [vm_compute; reflexivity|]. split; [vm_compute; reflexivity|].
  split; [vm_compute; reflexivity|].
  intros (v1 & v2 & Hu & _ & Hle).
  vm_compute in Hu. injection Hu as <-. discriminate.
Qed.

End Projections.

(** ** What validation does not check *)

Section Unchecked.

Import JS GoodsManagement Samples.

(** C4, as the code has it: [handleSubmit] has no check on the sign of
    the price.  A submission whose seven fields are non-empty and whose
    price parses to a number [<= 0] is accepted like any other: a record
    is appended whose prediction block holds the price times 1.03 and
    times 0.97 at every horizon, and the error message is empty. *)
Theorem nonpositive_price_projected s now r h :
  allFilled (formData s) = true -> In h horizons ->
  le (parsedPrice (formData s)) zero = true ->
  exists g,
    goods (handleSubmit now r s) = goods s ++ [g] /\
    currentPrice g = parsedPrice (formData s) /\
    up (predictions g) !! h = Some (mul (currentPrice g) lit_1_03) /\
    down (predictions g) !! h = Some (mul (currentPrice g) lit_0_97) /\
    error (handleSubmit now r s) = "".
Proof.
  intros Hall Hh _.
  exists (newGoods (formData s) now r).
  rewrite (handleSubmit_accepted now r s Hall).
  cbn [goods newGoods predictions currentPrice error].
  destruct (predictions_lookup (formData s) h Hh) as [Hu Hd]. done.
Qed.

Lemma nonpositive_price_projected_witness :
  allFilled (formData (typed "5" "-5")) = true /\ In 30 horizons /\
  le (parsedPrice (formData (typed "5" "-5"))) zero = true /\
  exists g,
    goods (handleSubmit 0 highDraws (typed "5" "-5")) = goods (typed "5" "-5") ++ [g] /\
    currentPrice g = parsedPrice (formData (typed "5" "-5")) /\
    up (predictions g) !! 30 = Some (mul (currentPrice g) lit_1_03) /\
    down (predictions g) !! 30 = Some (mul (currentPrice g) lit_0_97) /\
    error (handleSubmit 0 highDraws (typed "5" "-5")) = "".
Proof.
  split; [reflexivity|]. split; [simpl; tauto|]. split; [reflexivity|].
  apply (nonpositive_price_projected (typed "5" "-5") 0 highDraws 30);
    [reflexivity|simpl; tauto|reflexivity].
Defined.

(** C4 fails as stated: the price ["-5"] parses to a number [<= 0], yet
    the submission changes the catalog: it appends a record with a
    prediction block, and it leaves no error. *)
Lemma nonpositive_price_accepted :
  exists g,
    goods (handleSubmit 0 highDraws (typed "5" "-5")) = [g] /\
    le (currentPrice g) zero = true /\
    up (predictions g) !! 30 = Some (mul (parseFloat "-5") lit_1_03) /\
    down (predictions g) !! 30 = Some (mul (parseFloat "-5") lit_0_97) /\
    goods (handleSubmit 0 highDraws (typed "5" "-5")) <> goods (typed "5" "-5") /\
    error (handleSubmit 0 highDraws (typed "5" "-5")) = "".
Proof.
  exists (newGoods (formData (typed "5" "-5")) 0 highDraws).
  split; [vm_compute; reflexivity|]. split; [vm_compute; reflexivity|].
  split; [vm_compute; reflexivity|]. split; [vm_compute; reflexivity|].
  split; [|vm_compute; reflexivity].
  intros E. apply (f_equal length) in E. vm_compute in E. discriminate.
Qed.

(** C7, as the code has it: [handleSubmit] validates only that the seven
    fields are non-empty.  When they are, one record is appended and the
    error message is empty, whatever [cost] and [price] parse to; when one
    is not, nothing is appended and the message is the fixed text
    "Please fill in all fields", which names no field. *)
Theorem validation_checks_presence_only s now r :
  (allFilled (formData s) = true ->
   length (goods (handleSubmit now r s)) = S (length (goods s)) /\
   error (handleSubmit now r s) = "") /\
  (allFilled (formData s) = false ->
   goods (handleSubmit now r s) = goods s /\
   error (handleSubmit now r s) = "Please fill in all fields").
Proof.
  split; intros H.
  - rewrite (handleSubmit_accepted now r s H). cbn [goods error].
    rewrite length_app. simpl. split; [lia|done].
  - rewrite (handleSubmit_rejected now r s H). done.
Qed.

Lemma validation_checks_presence_only_witness :
  (allFilled (formData (typed "-3" "0")) = true /\
   length (goods (handleSubmit 0 highDraws (typed "-3" "0"))) =
     S (length (goods (typed "-3" "0"))) /\
   error (handleSubmit 0 highDraws (typed "-3" "0")) = "") /\
  (allFilled (formData (typed "" "10")) = false /\
   goods (handleSubmit 0 highDraws (typed "" "10")) = goods (typed "" "10") /\
   error (handleSubmit 0 highDraws (typed "" "10")) = "Please fill in all fields").
Proof.
  split.
  - split; [reflexivity|].
    apply (proj1 (validation_checks_presence_only (typed "-3" "0") 0 highDraws)).
    reflexivity.
  - split; [reflexivity|].
    apply (proj2 (validation_checks_presence_only (typed "" "10") 0 highDraws)).
    reflexivity.
Defined.

(** C7 fails as stated: with cost ["-3"] and price ["0"], neither of which
    parses to a positive number, the submission is accepted and a record
    is appended. *)
Lemma invalid_numbers_accepted :
  formData (typed "-3" "0") !! "cost" = Some "-3" /\
  formData (typed "-3" "0") !! "price" = Some "0" /\
  gt (parseFloat "-3") zero = false /\
  gt (parseFloat "0") zero = false /\
  length (goods (typed "-3" "0")) = 0%nat /\
  length (goods (handleSubmit 0 highDraws (typed "-3" "0"))) = 1%nat /\
  goods (handleSubmit 0 highDraws (typed "-3" "0")) <> goods (typed "-3" "0") /\
  error (handleSubmit 0 highDraws (typed "-3" "0")) = "".
Proof.
  split; [vm_compute; reflexivity|]. split; [vm_compute; reflexivity|].
  split; [vm_compute; reflexivity|]. split; [vm_compute; reflexivity|].
  split; [vm_compute; reflexivity|]. split; [vm_compute; reflexivity|].
  split; [|vm_compute; reflexivity].
  intros E. apply (f_equal length) in E. vm_compute in E. discriminate.
Qed.

End Unchecked.

(** ** The goods form over whole sessions *)

Section Sessions.

Import JS GoodsManagement GoodsView Samples.

Lemma run_app s evs1 evs2 : run s (evs1 ++ evs2) = run (run s evs1) evs2.
Proof. apply fold_left_app. Qed.

Lemma run_invariant (P : State -> Prop) :
  (forall s ev, P s -> P (step s ev)) ->
  forall evs s, P s -> P (run s evs).
Proof.
  intros Hstep evs. induction evs as [|ev evs IH]; intros s Hs; simpl; auto.
Qed.

(** X1: [handleInputChange] stores the value under the given name and
    changes nothing else: every other field of the form keeps its value,
    and the catalog, the loading flag, the error message, the rate table
    and the console are untouched. *)
Theorem input_change_sets_one_field s name value :
  formData (handleInputChange name value s) !! name = Some value /\
  (forall k, k <> name ->
     formData (handleInputChange name value s) !! k = formData s !! k) /\
  goods (handleInputChange name value s) = goods s /\
  loading (handleInputChange name value s) = loading s /\
  error (handleInputChange name value s) = error s /\
  exchangeRate (handleInputChange name value s) = exchangeRate s /\
  console (handleInputChange name value s) = console s.
Proof.
  unfold handleInputChange, setFormData. cbn [formData goods loading error exchangeRate console].
  split; [apply lookup_insert_eq|]. split; [|done].
  intros k Hk. by apply lookup_insert_ne.
Qed.

Lemma input_change_sets_one_field_witness :
  formData (handleInputChange "price" "12" (typed "5" "10")) !! "price" = Some "12" /\
  ("cost" <> "price" ->
   formData (handleInputChange "price" "12" (typed "5" "10")) !! "cost" =
     formData (typed "5" "10") !! "cost").
Proof.
  destruct (input_change_sets_one_field (typed "5" "10") "price" "12")
    as (Hset & Hkeep & _).
  split; [exact Hset|]. intros Hne. apply Hkeep. exact Hne.
Defined.

(** X2: typing twice into one field keeps the last value only, and
    changes of two different fields can be made in either order. *)
Theorem input_changes_compose s n1 n2 v1 v2 :
  handleInputChange n1 v2 (handleInputChange n1 v1 s) = handleInputChange n1 v2 s /\
  (n1 <> n2 ->
   handleInputChange n1 v1 (handleInputChange n2 v2 s) =
   handleInputChange n2 v2 (handleInputChange n1 v1 s)).
Proof.
  unfold handleInputChange, setFormData. cbn [formData goods loading error exchangeRate console].
  split.
  - by rewrite insert_insert_eq.
  - intros Hne. f_equal. by apply insert_insert_ne.
Qed.

Lemma input_changes_compose_witness :
  "cost" <> "price" /\
  handleInputChange "cost" "7" (handleInputChange "price" "12" initial) =
  handleInputChange "price" "12" (handleInputChange "cost" "7" initial).
Proof.
  split; [discriminate|].
  apply (proj2 (input_changes_compose initial "cost" "price" "7" "12")).
  discriminate.
Defined.

(** X3: in every state the page reaches between events the loading flag
    is off, so the submit button is enabled, and the error message is
    either empty or "Please fill in all fields": [handleSubmit] raises
    and clears the flag within one handler run. *)
Theorem reachable_state_idle evs :
  loading (run initial evs) = false /\
  submitDisabled (run initial evs) = false /\
  (error (run initial evs) = "" \/
   error (run initial evs) = "Please fill in all fields").
Proof.
  unfold submitDisabled.
  apply (run_invariant
           (fun s => loading s = false /\ loading s = false /\
                     (error s = "" \/ error s = "Please fill in all fields"))).
  - intros s [o|name value|now r] (Hl & _ & He); simpl.
    + unfold fetchExchangeRate. by destruct (response_rates o).
    + done.
    + unfold handleSubmit. destruct (someFieldMissing (formData s)); simpl; auto.
  - simpl. auto.
Qed.


(** In a reachable state the seven fields are always present. *)
Lemma reachable_form_complete evs k :
  In k requiredFields -> is_Some (formData (run initial evs) !! k).
Proof.
  intros Hk. revert k Hk.
  apply (run_invariant
           (fun s => forall k, In k requiredFields -> is_Some (formData s !! k))).
  - intros s [o|name value|now r] Hs k Hk; simpl.
    + unfold fetchExchangeRate. destruct (response_rates o); by apply Hs.
    + apply lookup_insert_is_Some'. right. by apply Hs.
    + unfold handleSubmit. destruct (someFieldMissing (formData s)); simpl.
      * by apply Hs.
      * simpl in Hk.
        destruct Hk as [<-|[<-|[<-|[<-|[<-|[<-|[<-|[]]]]]]]]; by eexists.
  - intros k Hk. simpl in Hk.
    destruct Hk as [<-|[<-|[<-|[<-|[<-|[<-|[<-|[]]]]]]]]; by eexists.
Qed.

Lemma forallb_false {A} (f : A -> bool) (l : list A) :
  forallb f l = false -> exists x, In x l /\ f x = false.
Proof.
  induction l as [|a l IH]; simpl; [discriminate|].
  destruct (f a) eqn:E; simpl; intros H.
  - destruct (IH H) as (x & Hx & Hf). eauto.
  - eauto.
Qed.

(** X4: in a state reached from the initial one a submission gets the
    message "Please fill in all fields" exactly when one of the seven
    fields holds the empty string; a missing field never arises there. *)
Theorem refusal_means_empty_field evs now r :
  error (handleSubmit now r (run initial evs)) = "Please fill in all fields" <->
  exists k, In k requiredFields /\ formData (run initial evs) !! k = Some "".
Proof.
  split.
  - intros He. destruct (allFilled (formData (run initial evs))) eqn:E.
    { rewrite (handleSubmit_accepted now r _ E) in He. discriminate. }
    apply forallb_false in E as (k & Hk & Hf).
    exists k. split; [done|].
    destruct (reachable_form_complete evs k Hk) as [v Hv].
    unfold filled in Hf. rewrite Hv in Hf. rewrite Hv. by destruct v.
  - intros (k & Hk & Hv).
    by rewrite (handleSubmit_rejected now r _ (empty_not_allFilled _ k Hk Hv)).
Qed.

Lemma refusal_means_empty_field_witness :
  error (handleSubmit 0 highDraws (run initial (filling "" "10"))) =
    "Please fill in all fields" /\
  exists k, In k requiredFields /\
            formData (run initial (filling "" "10")) !! k = Some "".
Proof.
  split; [reflexivity|].
  apply (proj1 (refusal_means_empty_field (filling "" "10") 0 highDraws)).
  reflexivity.
Defined.

(** Every stored record was built by [newGoods] from a form whose seven
    fields were filled. *)
Lemma stored_record_origin evs g :
  In g (goods (run initial evs)) ->
  exists fd now r, allFilled fd = true /\ g = newGoods fd now r.
Proof.
  revert g.
  apply (run_invariant
           (fun s => forall g, In g (goods s) ->
              exists fd now r, allFilled fd = true /\ g = newGoods fd now r)).
  - intros s [o|name value|now r] Hs g Hg; simpl in Hg.
    + unfold fetchExchangeRate in Hg. destruct (response_rates o); by apply Hs.
    + by apply Hs.
    + destruct (allFilled (formData s)) eqn:E.
      * rewrite (handleSubmit_accepted now r s E) in Hg. cbn [goods] in Hg.
        apply in_app_or in Hg as [Hg|[<-|[]]]; [by apply Hs|]. eauto.
      * rewrite (handleSubmit_rejected now r s E) in Hg. by apply Hs.
  - intros g [].
Qed.

(** X5: every record the catalog ever holds carries seven non-empty
    fields, a [currentPrice] equal to [parseFloat] of its own price field,
    prediction objects with exactly the keys 30, 50 and 60 holding that
    price times 1.03 and times 0.97, and supplier labels taken from their
    two-value sets. *)
Theorem stored_records_consistent evs g :
  In g (goods (run initial evs)) ->
  allFilled (fields g) = true /\
  (exists price, fields g !! "price" = Some price /\
                 currentPrice g = parseFloat price) /\
  (forall h, In h horizons ->
     up (predictions g) !! h = Some (mul (currentPrice g) lit_1_03) /\
     down (predictions g) !! h = Some (mul (currentPrice g) lit_0_97)) /\
  (forall h, ~ In h horizons ->
     up (predictions g) !! h = None /\ down (predictions g) !! h = None) /\
  (onTimeDelivery (supplierPerformance g) = "Good" \/
   onTimeDelivery (supplierPerformance g) = "Poor") /\
  (qualityScore (supplierPerformance g) = "High" \/
   qualityScore (supplierPerformance g) = "Low") /\
  (riskLevel (supplierPerformance g) = "Low" \/
   riskLevel (supplierPerformance g) = "High").
Proof.
  intros Hg.
  pose proof (stored_record_origin evs g Hg) as Hnew.
  destruct Hnew as (fd & now & r & Hall & ->).
  cbn [newGoods fields currentPrice predictions supplierPerformance
       makeSupplierPerformance onTimeDelivery qualityScore riskLevel].
  split; [done|]. split.
  { destruct (proj1 (allFilled_spec fd) Hall "price") as (price & Hp & _);
      [simpl; tauto|].
    exists price. split; [done|]. unfold parsedPrice. by rewrite Hp. }
  split; [intros h Hh; by apply predictions_lookup|].
  split.
  { intros h Hh. cbn [makePredictions up down].
    assert (h <> 30 /\ h <> 50 /\ h <> 60) as (H1 & H2 & H3)
      by (simpl in Hh; repeat split; intros ->; tauto).
    by rewrite !lookup_insert_ne, !lookup_singleton_ne. }
  split; [destruct (gt (draw1 r) lit_0_3); auto|].
  split; [destruct (gt (draw2 r) lit_0_2); auto|].
  destruct (gt (draw3 r) lit_0_4); auto.
Qed.

Lemma stored_records_consistent_witness :
  In (newGoods (formData (typed "5" "10")) 0 highDraws)
     (goods (run initial (filling "5" "10" ++ [Submit 0 highDraws]))) /\
  allFilled (fields (newGoods (formData (typed "5" "10")) 0 highDraws)) = true.
Proof.
  split; [vm_compute; left; reflexivity|].
  apply (stored_records_consistent (filling "5" "10" ++ [Submit 0 highDraws])).
  vm_compute. left. reflexivity.
Defined.


(** X6: only submissions change the catalog, the error message and the
    loading flag: along input changes and settled fetches they stay as they
    are, so the alert of a refused submission stays up while the user
    types. *)
Theorem only_submit_touches_catalog s evs :
  forallb (fun ev => negb (isSubmit ev)) evs = true ->
  goods (run s evs) = goods s /\
  error (run s evs) = error s /\
  loading (run s evs) = loading s /\
  alertShown (run s evs) = alertShown s.
Proof.
  unfold alertShown. revert s.
  induction evs as [|ev evs IH]; intros s Hev; simpl in *; [done|].
  apply andb_true_iff in Hev as [Hev Hevs].
  destruct (IH (step s ev) Hevs) as (Hg & He & Hl & Ha).
  rewrite Hg, He, Hl.
  destruct ev as [o|name value|now r]; simpl in *; try done.
  unfold fetchExchangeRate. by destruct (response_rates o).
Qed.

Lemma only_submit_touches_catalog_witness :
  forallb (fun ev => negb (isSubmit ev)) (filling "7" "12") = true /\
  error (run (handleSubmit 0 highDraws initial) (filling "7" "12")) =
    "Please fill in all fields".
Proof.
  split; [reflexivity|].
  destruct (only_submit_touches_catalog (handleSubmit 0 highDraws initial)
              (filling "7" "12") eq_refl) as (_ & He & _).
  rewrite He. reflexivity.
Defined.

(** X7: submitting again right after an accepted submission is refused:
    the form was reset, so the catalog holds the one new record only and
    the message "Please fill in all fields" appears. *)
Theorem resubmission_refused s now r now' r' :
  allFilled (formData s) = true ->
  goods (handleSubmit now' r' (handleSubmit now r s)) =
    goods s ++ [newGoods (formData s) now r] /\
  error (handleSubmit now' r' (handleSubmit now r s)) =
    "Please fill in all fields" /\
  formData (handleSubmit now' r' (handleSubmit now r s)) = emptyForm.
Proof.
  intros Hall. rewrite (handleSubmit_accepted now r s Hall).
  rewrite handleSubmit_rejected by reflexivity. done.
Qed.

Lemma resubmission_refused_witness :
  allFilled (formData (typed "5" "10")) = true /\
  goods (handleSubmit 1 lowDraws (handleSubmit 0 highDraws (typed "5" "10"))) =
    goods (typed "5" "10") ++ [newGoods (formData (typed "5" "10")) 0 highDraws].
Proof.
  split; [reflexivity|].
  apply (resubmission_refused (typed "5" "10") 0 highDraws 1 lowDraws).
  reflexivity.
Defined.

(** X8: along any events the catalog never shrinks and grows by at most
    one record per submission. *)
Theorem catalog_growth_bounded s evs :
  (length (goods s) <= length (goods (run s evs)) <=
   length (goods s) + length (List.filter isSubmit evs))%nat.
Proof.
  revert s. induction evs as [|ev evs IH]; intros s; simpl; [lia|].
  specialize (IH (step s ev)).
  assert (Hstep : (length (goods s) <= length (goods (step s ev)) <=
                   length (goods s) + if isSubmit ev then 1 else 0)%nat).
  { destruct ev as [o|name value|now r]; simpl.
    - unfold fetchExchangeRate. destruct (response_rates o); simpl; lia.
    - lia.
    - unfold handleSubmit. destruct (someFieldMissing (formData s)); simpl.
      + lia.
      + rewrite length_app. simpl. lia. }
  destruct (isSubmit ev); simpl; lia.
Qed.

(** X9: the rate table and the console are written by
    [fetchExchangeRate] only: input changes and submissions leave both as
    they are, so the table is still [null] when no fetch has settled. *)
Theorem rate_table_set_only_by_fetch s evs :
  forallb (fun ev => negb (isFetch ev)) evs = true ->
  exchangeRate (run s evs) = exchangeRate s /\ console (run s evs) = console s.
Proof.
  revert s. induction evs as [|ev evs IH]; intros s Hev; simpl in *; [done|].
  apply andb_true_iff in Hev as [Hev Hevs].
  destruct (IH (step s ev) Hevs) as [-> ->].
  destruct ev as [o|name value|now r]; simpl in *; try done.
  unfold handleSubmit. by destruct (someFieldMissing (formData s)).
Qed.

Lemma rate_table_set_only_by_fetch_witness :
  forallb (fun ev => negb (isFetch ev)) (filling "5" "10" ++ [Submit 0 highDraws]) = true /\
  exchangeRate (run initial (filling "5" "10" ++ [Submit 0 highDraws])) = None.
Proof.
  split; [reflexivity|].
  destruct (rate_table_set_only_by_fetch initial
              (filling "5" "10" ++ [Submit 0 highDraws]) eq_refl) as [He _].
  rewrite He. reflexivity.
Defined.

(** X10: the console holds one line per failed fetch and nothing else,
    in the order the fetches settled; each line is the label
    "Error fetching exchange rate:" followed by the error that fetch
    threw. *)
Theorem console_counts_failed_fetches evs :
  console (run initial evs) =
    map (fun t => ("Error fetching exchange rate:", t)) (thrownBy evs) /\
  length (console (run initial evs)) = length (List.filter isFailedFetch evs).
Proof.
  assert (H : forall evs s,
    console (run s evs) =
      console s ++ map (fun t => ("Error fetching exchange rate:", t)) (thrownBy evs) /\
    length (thrownBy evs) = length (List.filter isFailedFetch evs)).
  { clear evs. induction evs as [|ev evs IH]; intros s; simpl.
    { by rewrite app_nil_r. }
    destruct (IH (step s ev)) as [Hc Hl]. rewrite Hc.
    destruct ev as [o|name value|now r]; simpl.
    - unfold fetchExchangeRate. destruct (response_rates o) as [t|rates]; simpl.
      + rewrite <- app_assoc. simpl. by rewrite Hl.
      + done.
    - done.
    - split; [|done]. unfold handleSubmit.
      by destruct (someFieldMissing (formData s)). }
  destruct (H evs initial) as [Hc Hl]. rewrite Hc. simpl. split; [done|].
  by rewrite length_map.
Qed.

End Sessions.

(** ** Prices of either sign *)

Section Signs.

Import JS GoodsManagement GoodsView Samples.

Lemma SFcompare_opp x y : SFcompare (SFopp x) (SFopp y) = SFcompare y x.
Proof.
  destruct x as [sx|sx| |sx mx ex], y as [sy|sy| |sy my ey]; try done;
    try (by destruct sx); try (by destruct sy); try (by destruct sx, sy).
  cbn [SFopp SFcompare].
  rewrite (Z.compare_antisym ex ey).
  change (Pos.compare_cont Eq my mx) with (Pos.compare my mx).
  change (Pos.compare_cont Eq mx my) with (Pos.compare mx my).
  rewrite (Pos.compare_antisym mx my).
  destruct sx, sy; cbn [negb]; try done;
    destruct (Z.compare ex ey); cbn [CompOpp]; try done;
    by destruct (Pos.compare mx my).
Qed.

Lemma binary_round_aux_opp m e l :
  binary_round_aux prec emax true m e l =
  SFopp (binary_round_aux prec emax false m e l).
Proof.
  unfold binary_round_aux.
  destruct (shr_fexp prec emax m e l) as [mrs' e'].
  destruct (shr_fexp prec emax _ e' loc_Exact) as [mrs'' e''].
  destruct (shr_m mrs'') as [|q|q]; try done.
  by destruct (e'' <=? emax - prec).
Qed.

Lemma SFopp_involutive x : SFopp (SFopp x) = x.
Proof. destruct x as [s|s| |s m e]; try done; by destruct s. Qed.

Lemma mul_opp x sy my ey :
  mul (SFopp x) (S754_finite sy my ey) = SFopp (mul x (S754_finite sy my ey)).
Proof.
  destruct x as [sx|sx| |sx mx ex]; try done; unfold mul; cbn [SFopp SFmul].
  - by destruct sx, sy.
  - by destruct sx, sy.
  - destruct sx, sy; cbn [xorb negb];
      by rewrite ?binary_round_aux_opp, ?SFopp_involutive.
Qed.


Lemma well_formed_opp x : well_formed (SFopp x) = well_formed x.
Proof. by destruct x. Qed.

(** A finite price at or below [-17 * 2^-1074] has its [up] projection
    below it and its [down] projection above it. *)
Lemma negative_price_brackets p :
  well_formed p = true ->
  le p largestMovingNegative = true -> lt negInfinity p = true ->
  lt (mul p lit_1_03) p = true /\ lt p (mul p lit_0_97) = true.
Proof.
  intros Hwf Hmax Hfin.
  destruct (price_brackets (SFopp p)) as [Hup Hdown].
  - by rewrite well_formed_opp.
  - unfold le, SFleb. change smallestMoving with (SFopp largestMovingNegative).
    by rewrite SFcompare_opp.
  - unfold lt, SFltb. change infinity with (SFopp negInfinity).
    by rewrite SFcompare_opp.
  - unfold gt, lt, SFltb in *. unfold lit_1_03, lit_0_97 in *.
    rewrite mul_opp, SFcompare_opp in Hup.
    rewrite mul_opp, SFcompare_opp in Hdown. done.
Qed.

(** X11: for a finite price at or below [-17 * 2^-1074] the scenarios
    swap sides: at every horizon the [up] projection is strictly below the
    price and the [down] projection strictly above it. *)
Theorem negative_price_inverted s now r h :
  allFilled (formData s) = true -> In h horizons ->
  le (parsedPrice (formData s)) largestMovingNegative = true ->
  lt negInfinity (parsedPrice (formData s)) = true ->
  exists g v w,
    goods (handleSubmit now r s) = goods s ++ [g] /\
    up (predictions g) !! h = Some v /\
    down (predictions g) !! h = Some w /\
    lt v (currentPrice g) = true /\
    lt (currentPrice g) w = true.
Proof.
  intros Hall Hh Hmax Hfin.
  exists (newGoods (formData s) now r),
    (mul (parsedPrice (formData s)) lit_1_03),
    (mul (parsedPrice (formData s)) lit_0_97).
  rewrite (handleSubmit_accepted now r s Hall).
  cbn [goods newGoods predictions currentPrice].
  destruct (predictions_lookup (formData s) h Hh) as [Hu Hd].
  destruct (negative_price_brackets (parsedPrice (formData s))) as [Hup Hdown];
    [apply parseFloat_well_formed|done|done|done].
Qed.

Lemma negative_price_inverted_witness :
  allFilled (formData (typed "5" "-5")) = true /\ In 30 horizons /\
  le (parsedPrice (formData (typed "5" "-5"))) largestMovingNegative = true /\
  lt negInfinity (parsedPrice (formData (typed "5" "-5"))) = true /\
  exists g v w,
    goods (handleSubmit 0 highDraws (typed "5" "-5")) = goods (typed "5" "-5") ++ [g] /\
    up (predictions g) !! 30 = Some v /\
    down (predictions g) !! 30 = Some w /\
    lt v (currentPrice g) = true /\
    lt (currentPrice g) w = true.
Proof.
  split; [reflexivity|]. split; [simpl; tauto|].
  split; [reflexivity|]. split; [reflexivity|].
  apply (negative_price_inverted (typed "5" "-5") 0 highDraws 30);
    [reflexivity|simpl; tauto|reflexivity|reflexivity].
Defined.

(** X12: when the price parses to a zero, an infinity or NaN, every
    projection of both scenarios is that same value. *)
Theorem degenerate_price_is_own_projection s now r h :
  allFilled (formData s) = true -> In h horizons ->
  degenerate (parsedPrice (formData s)) = true ->
  exists g,
    goods (handleSubmit now r s) = goods s ++ [g] /\
    up (predictions g) !! h = Some (currentPrice g) /\
    down (predictions g) !! h = Some (currentPrice g).
Proof.
  intros Hall Hh Hdeg.
  exists (newGoods (formData s) now r).
  rewrite (handleSubmit_accepted now r s Hall).
  cbn [goods newGoods predictions currentPrice].
  destruct (predictions_lookup (formData s) h Hh) as [Hu Hd].
  rewrite Hu, Hd.
  destruct (parsedPrice (formData s)) as [sx|sx| |sx mx ex]; try done;
    by destruct sx.
Qed.

Lemma degenerate_price_is_own_projection_witness :
  allFilled (formData (typed "5" "0")) = true /\ In 60 horizons /\
  degenerate (parsedPrice (formData (typed "5" "0"))) = true /\
  exists g,
    goods (handleSubmit 0 highDraws (typed "5" "0")) = goods (typed "5" "0") ++ [g] /\
    up (predictions g) !! 60 = Some (currentPrice g) /\
    down (predictions g) !! 60 = Some (currentPrice g).
Proof.
  split; [reflexivity|]. split; [simpl; tauto|]. split; [reflexivity|].
  apply (degenerate_price_is_own_projection (typed "5" "0") 0 highDraws 60);
    [reflexivity|simpl; tauto|reflexivity].
Defined.

End Signs.

(** ** The supplier table *)

Section SupplierTable.

Import JS GoodsManagement GoodsView Samples.

(** X13: an accepted submission adds one row at the end of the supplier
    table; it shows the submitted supplier name, and its chips follow the
    draws: Good/success when the first exceeds 0.3 and Poor/error
    otherwise, High/success or Low/error around 0.2 for the second,
    Low/success or High/error around 0.4 for the third. *)
Theorem accepted_submission_adds_row s now r :
  allFilled (formData s) = true ->
  exists row,
    supplierTable (handleSubmit now r s) = supplierTable s ++ [row] /\
    supplierCell row = formData s !! "supplierName" /\
    onTimeChip row =
      (if gt (draw1 r) lit_0_3
       then {| label := "Good"; color := "success" |}
       else {| label := "Poor"; color := "error" |}) /\
    qualityChip row =
      (if gt (draw2 r) lit_0_2
       then {| label := "High"; color := "success" |}
       else {| label := "Low"; color := "error" |}) /\
    riskChip row =
      (if gt (draw3 r) lit_0_4
       then {| label := "Low"; color := "success" |}
       else {| label := "High"; color := "error" |}).
Proof.
  intros Hall. exists (supplierRow (newGoods (formData s) now r)).
  unfold supplierTable. rewrite (handleSubmit_accepted now r s Hall).
  cbn [goods]. rewrite map_app. split; [done|].
  unfold supplierRow, getSupplierRiskColor.
  cbn [newGoods fields supplierPerformance makeSupplierPerformance
       onTimeDelivery qualityScore riskLevel supplierCell onTimeChip
       qualityChip riskChip].
  split; [done|].
  destruct (gt (draw1 r) lit_0_3), (gt (draw2 r) lit_0_2), (gt (draw3 r) lit_0_4);
    done.
Qed.

Lemma accepted_submission_adds_row_witness :
  allFilled (formData (typed "5" "10")) = true /\
  exists row,
    supplierTable (handleSubmit 0 lowDraws (typed "5" "10")) =
      supplierTable (typed "5" "10") ++ [row] /\
    supplierCell row = Some "Acme" /\
    riskChip row = {| label := "High"; color := "error" |}.
Proof.
  split; [reflexivity|].
  destruct (accepted_submission_adds_row (typed "5" "10") 0 lowDraws eq_refl)
    as (row & Ht & Hc & _ & _ & Hr).
  exists row. split; [exact Ht|]. split; [exact Hc|exact Hr].
Defined.

(** X14: every row the supplier table ever shows has a non-empty
    supplier name and chips whose colour agrees with their label:
    Good/success or Poor/error, High/success or Low/error, and for the risk
    Low/success or High/error. *)
Theorem supplier_table_rows evs row :
  In row (supplierTable (run initial evs)) ->
  (exists name, supplierCell row = Some name /\ name <> "") /\
  (onTimeChip row = {| label := "Good"; color := "success" |} \/
   onTimeChip row = {| label := "Poor"; color := "error" |}) /\
  (qualityChip row = {| label := "High"; color := "success" |} \/
   qualityChip row = {| label := "Low"; color := "error" |}) /\
  (riskChip row = {| label := "Low"; color := "success" |} \/
   riskChip row = {| label := "High"; color := "error" |}).
Proof.
  unfold supplierTable. intros Hrow.
  apply in_map_iff in Hrow as (g & <- & Hg).
  destruct (stored_record_origin evs g Hg) as (fd & now & r & Hall & ->).
  unfold supplierRow, getSupplierRiskColor.
  cbn [supplierCell onTimeChip qualityChip riskChip newGoods fields
       supplierPerformance makeSupplierPerformance onTimeDelivery
       qualityScore riskLevel].
  split.
  { apply (proj1 (allFilled_spec _) Hall). simpl. tauto. }
  destruct (gt (draw1 r) lit_0_3), (gt (draw2 r) lit_0_2), (gt (draw3 r) lit_0_4);
    auto.
Qed.

Lemma supplier_table_rows_witness :
  In (supplierRow (newGoods (formData (typed "5" "10")) 0 highDraws))
     (supplierTable (run initial (filling "5" "10" ++ [Submit 0 highDraws]))) /\
  exists name,
    supplierCell (supplierRow (newGoods (formData (typed "5" "10")) 0 highDraws)) =
      Some name /\ name <> "".
Proof.
  split; [vm_compute; left; reflexivity|].
  apply (supplier_table_rows (filling "5" "10" ++ [Submit 0 highDraws])).
  vm_compute. left. reflexivity.
Defined.

End SupplierTable.

(** ** Time series analysis: requests and results *)

Section Analysis.

Import JS TimeSeries.

Lemma ts_run_invariant (P : State -> Prop) :
  (forall s ev, P s -> P (step s ev)) ->
  forall evs s, P s -> P (run s evs).
Proof.
  intros Hstep evs. induction evs as [|ev evs IH]; intros s Hs; simpl; auto.
Qed.

Lemma errorMessage_truthy err : truthy (errorMessage err) = true.
Proof.
  unfold errorMessage. by destruct (truthy (serverError err)) eqn:E.
Qed.

(** X15: clicking Analyze while idle on input that [JSON.parse] rejects
    posts no request: the error becomes "Error analyzing time series
    data", the loading flag is off again, and the analysis shown is kept. *)
Theorem invalid_json_sends_nothing s :
  loading s = false -> JSON_parse (inputData s) = None ->
  step s Click =
  {| inputData := inputData s; loading := false;
     error := VString "Error analyzing time series data";
     analysis := analysis s; posted := posted s; pending := pending s |}.
Proof.
  intros Hl Hp. cbn [step]. rewrite Hl. unfold handleAnalyze.
  cbn [setLoading setError inputData]. rewrite Hp. reflexivity.
Qed.

Lemma invalid_json_sends_nothing_witness :
  loading (setInputData "[1, 2" initial) = false /\
  JSON_parse (inputData (setInputData "[1, 2" initial)) = None /\
  posted (step (setInputData "[1, 2" initial) Click) = [] /\
  error (step (setInputData "[1, 2" initial) Click) =
    VString "Error analyzing time series data".
Proof.
  split; [reflexivity|]. split; [vm_compute; reflexivity|].
  rewrite (invalid_json_sends_nothing (setInputData "[1, 2" initial));
    [split; reflexivity|reflexivity|vm_compute; reflexivity].
Defined.

(** X16: between events the loading flag is on exactly while one
    request awaits its response; there is never more than one, and while
    it is on the error is empty. *)
Theorem spinner_tracks_request evs :
  (loading (run initial evs) = true /\ pending (run initial evs) = 1%nat /\
   error (run initial evs) = VString "") \/
  (loading (run initial evs) = false /\ pending (run initial evs) = 0%nat).
Proof.
  apply (ts_run_invariant
           (fun s => (loading s = true /\ pending s = 1%nat /\ error s = VString "") \/
                     (loading s = false /\ pending s = 0%nat))).
  - intros s [text| |o] Hs; cbn [step].
    + done.
    + destruct Hs as [(Hl & Hp & He)|(Hl & Hp)]; rewrite Hl; [auto|].
      unfold handleAnalyze.
      destruct (JSON_parse (inputData s));
        cbn [post setError setLoading loading pending error inputData].
      * left. by rewrite Hp.
      * right. done.
    + destruct Hs as [(Hl & Hp & He)|(Hl & Hp)]; rewrite Hp; [|auto].
      right. by destruct o.
  - right. done.
Qed.

(** X17: the analysis changes only when a request resolves: typing,
    clicks (refused input included) and rejected requests leave the
    previous analysis in place. *)
Theorem analysis_replaced_only_by_response s evs :
  forallb (fun ev => negb (isResolved ev)) evs = true ->
  analysis (run s evs) = analysis s.
Proof.
  revert s. induction evs as [|ev evs IH]; intros s Hev; simpl in *; [done|].
  apply andb_true_iff in Hev as [Hev Hevs]. rewrite (IH _ Hevs).
  destruct ev as [text| |[data|response]]; cbn [step]; try done.
  - destruct (loading s); [done|]. unfold handleAnalyze.
    by destruct (JSON_parse (inputData s)).
  - by destruct (pending s).
Qed.

Lemma analysis_replaced_only_by_response_witness :
  forallb (fun ev => negb (isResolved ev))
    [Typed "[1]"; Click; Settled (PostRejected None); Typed "oops"; Click] = true /\
  analysis (run (setAnalysis (VString "earlier") initial)
              [Typed "[1]"; Click; Settled (PostRejected None); Typed "oops"; Click]) =
    VString "earlier".
Proof.
  split; [reflexivity|].
  apply (analysis_replaced_only_by_response (setAnalysis (VString "earlier") initial)).
  reflexivity.
Defined.

(** X18: when the pending request is rejected the error becomes a
    truthy value: the [error] member of the response body when there is a
    truthy one, and "Error analyzing time series data" otherwise (no
    response, or a body without a truthy [error]); the loading flag goes
    off, the analysis is kept and one request fewer is pending. *)
Theorem rejection_shows_message s response :
  pending s <> 0%nat ->
  (forall data,
     response = Some data -> truthy (optional data "error") = true ->
     error (step s (Settled (PostRejected response))) = optional data "error") /\
  (response = None \/
   (exists data, response = Some data /\ truthy (optional data "error") = false) ->
   error (step s (Settled (PostRejected response))) =
     VString "Error analyzing time series data") /\
  truthy (error (step s (Settled (PostRejected response)))) = true /\
  loading (step s (Settled (PostRejected response))) = false /\
  analysis (step s (Settled (PostRejected response))) = analysis s /\
  pending (step s (Settled (PostRejected response))) = Nat.pred (pending s).
Proof.
  intros Hp. cbn [step]. destruct (pending s) as [|n]; [done|].
  cbn [resume setError setLoading error loading analysis pending Nat.pred].
  split.
  { intros data -> Ht. unfold errorMessage. cbn [serverError]. by rewrite Ht. }
  split.
  { intros [->|(data & -> & Hf)]; unfold errorMessage; cbn [serverError].
    - reflexivity.
    - by rewrite Hf. }
  split; [apply errorMessage_truthy|done].
Qed.

Lemma rejection_shows_message_witness :
  pending (run initial [Typed "[1]"; Click]) <> 0%nat /\
  truthy (optional (VObject [("error", VString "bad data")]) "error") = true /\
  error (step (run initial [Typed "[1]"; Click])
           (Settled (PostRejected (Some (VObject [("error", VString "bad data")]))))) =
    VString "bad data".
Proof.
  split; [vm_compute; discriminate|]. split; [reflexivity|].
  destruct (rejection_shows_message (run initial [Typed "[1]"; Click])
              (Some (VObject [("error", VString "bad data")])))
    as (Hmember & _); [vm_compute; discriminate|].
  rewrite (Hmember _ eq_refl eq_refl). reflexivity.
Defined.

(** X19: clicking Analyze while idle on valid JSON and receiving a
    response posts one request with body [{data: parsed}], shows the
    response body as the analysis, leaves the error empty and the loading
    flag off. *)
Theorem successful_round s v data :
  loading s = false -> pending s = 0%nat ->
  JSON_parse (inputData s) = Some v ->
  run s [Click; Settled (PostResolved data)] =
  {| inputData := inputData s; loading := false; error := VString "";
     analysis := data; posted := posted s ++ [VObject [("data", v)]];
     pending := 0 |}.
Proof.
  intros Hl Hp Hv. cbn [run fold_left step]. rewrite Hl.
  unfold handleAnalyze. cbn [setLoading setError inputData]. rewrite Hv.
  cbn [post pending resume setAnalysis setLoading inputData loading error
       analysis posted].
  rewrite <- Hp. reflexivity.
Qed.

Lemma successful_round_witness :
  loading (setInputData "[1, 2.5]" initial) = false /\
  pending (setInputData "[1, 2.5]" initial) = 0%nat /\
  JSON_parse (inputData (setInputData "[1, 2.5]" initial)) =
    Some (VArray [VNumber (of_decimal false 1 0); VNumber (of_decimal false 25 (-1))]) /\
  analysis (run (setInputData "[1, 2.5]" initial) [Click; Settled (PostResolved VNull)]) =
    VNull.
Proof.
  split; [reflexivity|]. split; [reflexivity|]. split; [vm_compute; reflexivity|].
  rewrite (successful_round (setInputData "[1, 2.5]" initial)
             (VArray [VNumber (of_decimal false 1 0); VNumber (of_decimal false 25 (-1))])
             VNull); [reflexivity|reflexivity|reflexivity|vm_compute; reflexivity].
Defined.


Lemma posted_origin evs : forall s body,
  In body (posted (run s evs)) ->
  In body (posted s) \/
  exists text v,
    (text = inputData s \/ In (Typed text) evs) /\
    JSON_parse text = Some v /\ body = VObject [("data", v)].
Proof.
  induction evs as [|ev evs IH]; intros s body Hb; simpl in Hb; [by left|].
  destruct (IH _ _ Hb) as [Hin|(text & v & Ht & Hv & ->)]; clear IH Hb.
  - destruct ev as [t| |o]; cbn [step] in Hin.
    + by left.
    + destruct (loading s); [by left|].
      unfold handleAnalyze in Hin.
      destruct (JSON_parse (inputData s)) as [v|] eqn:E; [|by left].
      cbn [post posted setError setLoading] in Hin.
      apply in_app_or in Hin as [Hin|[<-|[]]]; [by left|].
      right. exists (inputData s), v. auto.
    + destruct (pending s); [by left|]. destruct o; by left.
  - right. exists text, v. split; [|done].
    destruct Ht as [->|Ht]; [|right; by right].
    destruct ev as [t| |o]; cbn [step].
    + right. by left.
    + left. destruct (loading s); [done|].
      unfold handleAnalyze. by destruct (JSON_parse (inputData s)).
    + left. destruct (pending s); [done|]. by destruct o.
Qed.

(** X20: every request the page ever posts has a body [{data: v}] where
    [v] is what [JSON.parse] returns on a text the user typed; unparsed
    text is never sent. *)
Theorem posted_bodies_are_parsed_input evs body :
  In body (posted (run initial evs)) ->
  exists text v,
    In (Typed text) evs /\ JSON_parse text = Some v /\
    body = VObject [("data", v)].
Proof.
  intros Hb.
  destruct (posted_origin evs initial body Hb) as [[]|(text & v & Ht & Hv & ->)].
  exists text, v. split; [|done].
  destruct Ht as [->|Ht]; [|done]. vm_compute in Hv. discriminate.
Qed.

Lemma posted_bodies_are_parsed_input_witness :
  In (VObject [("data", VArray [VNumber (of_decimal false 1 0)])])
     (posted (run initial [Typed "[1]"; Click])) /\
  exists text v,
    In (Typed text) [Typed "[1]"; Click] /\ JSON_parse text = Some v /\
    VObject [("data", VArray [VNumber (of_decimal false 1 0)])] =
      VObject [("data", v)].
Proof.
  split; [vm_compute; left; reflexivity|].
  apply (posted_bodies_are_parsed_input [Typed "[1]"; Click]).
  vm_compute. left. reflexivity.
Defined.

(** *** The bottleneck chart *)

Lemma map_member_whole name items :
  noHoles items = true ->
  map_member name items = Some (map (fun b => get b name) items).
Proof.
  induction items as [|b items IH]; simpl; [done|].
  intros H. apply andb_true_iff in H as [Hb Hi]. rewrite (IH Hi).
  by destruct b.
Qed.

Lemma map_member_hole name items :
  noHoles items = false -> map_member name items = None.
Proof.
  induction items as [|b items IH]; simpl; [done|].
  intros H. apply andb_false_iff in H as [Hb|Hi].
  - by destruct b.
  - rewrite (IH Hi). by destruct b.
Qed.

(** X21: when [analysis.bottlenecks] is an array without [null] items,
    [renderBottleneckGraph] returns a chart whose labels and points have
    the length of the array, the i-th label being the [step] and the i-th
    point the [impact] of the i-th item. *)
Theorem chart_follows_bottlenecks a items :
  optional a "bottlenecks" = VArray items -> noHoles items = true ->
  exists chart,
    renderBottleneckGraph a = inr (Some chart) /\
    length (labels chart) = length items /\
    length (points chart) = length items /\
    forall i b, nth_error items i = Some b ->
      nth_error (labels chart) i = Some (get b "step") /\
      nth_error (points chart) i = Some (get b "impact").
Proof.
  intros Hb Hn.
  assert (Hg : get a "bottlenecks" = VArray items)
    by (unfold optional in Hb; by destruct a).
  exists {| labels := map (fun b => get b "step") items;
            points := map (fun b => get b "impact") items |}.
  unfold renderBottleneckGraph. rewrite Hb, Hg. cbn [truthy negb].
  rewrite !map_member_whole by done. cbn [labels points].
  split; [done|]. rewrite !length_map. split; [done|]. split; [done|].
  intros i b Hi. rewrite !nth_error_map, Hi. done.
Qed.

Lemma chart_follows_bottlenecks_witness :
  optional (VObject [("bottlenecks",
              VArray [VObject [("step", VString "dock"); ("impact", VNumber (of_decimal false 5 (-1)))]])])
    "bottlenecks" =
    VArray [VObject [("step", VString "dock"); ("impact", VNumber (of_decimal false 5 (-1)))]] /\
  noHoles [VObject [("step", VString "dock"); ("impact", VNumber (of_decimal false 5 (-1)))]] = true /\
  exists chart,
    renderBottleneckGraph
      (VObject [("bottlenecks",
         VArray [VObject [("step", VString "dock"); ("impact", VNumber (of_decimal false 5 (-1)))]])]) =
      inr (Some chart) /\
    length (labels chart) = 1%nat.
Proof.
  split; [reflexivity|]. split; [reflexivity|].
  destruct (chart_follows_bottlenecks
              (VObject [("bottlenecks",
                 VArray [VObject [("step", VString "dock"); ("impact", VNumber (of_decimal false 5 (-1)))]])])
              [VObject [("step", VString "dock"); ("impact", VNumber (of_decimal false 5 (-1)))]]
              eq_refl eq_refl) as (chart & Hr & Hl & _).
  exists chart. split; [exact Hr|exact Hl].
Defined.

(** X22: [renderBottleneckGraph] returns [null] exactly when
    [analysis?.bottlenecks] is falsy, and throws exactly when it is truthy
    but not an array of non-null items (a non-empty string, a number, an
    object, or an array holding [null]). *)
Theorem chart_outcomes a :
  (renderBottleneckGraph a = inr None <->
   truthy (optional a "bottlenecks") = false) /\
  (renderBottleneckGraph a = inl tt <->
   truthy (optional a "bottlenecks") = true /\
   forall items, optional a "bottlenecks" = VArray items -> noHoles items = false).
Proof.
  assert (Hg : truthy (optional a "bottlenecks") = true ->
               get a "bottlenecks" = optional a "bottlenecks")
    by (unfold optional; by destruct a).
  unfold renderBottleneckGraph.
  destruct (truthy (optional a "bottlenecks")) eqn:Ht; cbn [negb].
  - rewrite (Hg eq_refl).
    destruct (optional a "bottlenecks") as [| | | | |items|] eqn:Hb;
      try (split; [split; [discriminate|discriminate]|];
           split; [intros _; split; [done|]; intros items' [=]|done]).
    destruct (noHoles items) eqn:Hn.
    + rewrite !map_member_whole by done. split; [split; discriminate|].
      split; [discriminate|]. intros [_ H]. specialize (H items eq_refl). congruence.
    + rewrite !map_member_hole by done. split; [split; discriminate|].
      split; [|done]. intros _. split; [done|]. by intros items' [= <-].
  - split; [done|]. split; [discriminate|]. by intros [? _].
Qed.

Lemma chart_outcomes_witness :
  truthy (optional VNull "bottlenecks") = false /\
  renderBottleneckGraph VNull = inr None.
Proof.
  split; [reflexivity|].
  apply (proj2 (proj1 (chart_outcomes VNull))). reflexivity.
Defined.

End Analysis.
